(** * copy-products: a shallow embedding of [src/copy-products.ts]

    The script copies a category tree, its product/category assignments and
    the store's product/channel assignments to the channel named by the
    process environment.  This file embeds its functions in Rocq and proves
    the properties of its specification against that embedding.

    Conventions of the embedding:
    - a JavaScript [number] that holds an identifier is a [Z]; the one
      non-integer number the script can meet, the [NaN] of [parseInt], is
      the [None] of an [option Z].  Rounding of integers beyond 2^53 to the
      nearest double is not modelled;
    - a JavaScript string is a [string] holding its UTF-8 encoding;
    - [undefined] is the [None] of an option;
    - [process.env] is a finite map from variable names to values;
    - a [Map] is a [gmap]; a header record is a [gmap] from header names
      to values;
    - a function that can throw returns a [Completion];
    - the asynchronous top level, which awaits one request after the other,
      is a state-and-exception monad over the list of requests issued so
      far and the lines printed so far. *)

From Stdlib Require Import ZArith String Ascii List DecimalString DecimalZ Lia.
From stdpp Require Import base option list strings gmap.

Open Scope string_scope.
Open Scope Z_scope.
Open Scope list_scope.

(** ** Exceptions and completions *)

Inductive Exception : Type :=
  | AssertionError (message : string)
  | Error (message : string)
  | TypeError (message : string)
  | Rejection (reason : string).

Inductive Completion (A : Type) : Type :=
  | Returned (value : A)
  | Thrown (e : Exception).

Arguments Returned {A} value.
Arguments Thrown {A} e.

#[global] Instance Completion_ret : MRet Completion := @Returned.

#[global] Instance Completion_bind : MBind Completion :=
  λ A B f c, match c with
             | Returned a => f a
             | Thrown e => Thrown e
             end.

#[global] Instance Completion_fmap : FMap Completion :=
  λ A B f c, match c with
             | Returned a => Returned (f a)
             | Thrown e => Thrown e
             end.

(** [Array.prototype.map] with a callback that may throw: the callback runs
    on the elements from left to right, and the first exception ends the
    whole call. *)
Fixpoint Array_map {A B : Type} (callback : A → Completion B) (array : list A)
  : Completion (list B) :=
  match array with
  | [] => Returned []
  | x :: rest =>
      match callback x with
      | Thrown e => Thrown e
      | Returned y =>
          match Array_map callback rest with
          | Thrown e => Thrown e
          | Returned ys => Returned (y :: ys)
          end
      end
  end.

(** ** Truthiness *)

(** [ToBoolean] on a string: only the empty string is falsy. *)
Definition truthy_string (s : string) : bool :=
  match s with
  | EmptyString => false
  | String _ _ => true
  end.

(** [ToBoolean] on an integer number: only zero is falsy. *)
Definition truthy_number (n : Z) : bool := negb (n =? 0).

(** [if (!v) throw e], after which [v] is known to hold a truthy value. *)
Definition throw_if_falsy {A : Type} (truthy_value : A → bool) (v : option A)
    (e : Exception) : Completion A :=
  match v with
  | Some a => if truthy_value a then Returned a else Thrown e
  | None => Thrown e
  end.

(** [assert(v, message)] of node's strict [assert]. *)
Definition assert {A : Type} (truthy_value : A → bool) (v : option A)
    (message : string) : Completion A :=
  throw_if_falsy truthy_value v (AssertionError message).

(** [v || fallback] on a string that may be [undefined]. *)
Definition or_else (v : option string) (fallback : string) : string :=
  match v with
  | Some a => if truthy_string a then a else fallback
  | None => fallback
  end.

(** ** Numbers and strings *)

(** [Number::toString] on an integer: its decimal digits, with a minus sign
    for a negative one (exact below 10^21, where JavaScript switches to
    exponent notation). *)
Definition Number_toString (n : Z) : string :=
  NilZero.string_of_int (Z.to_int n).

(** [Array.prototype.join] on an array of numbers. *)
Fixpoint Array_join (array : list Z) (separator : string) : string :=
  match array with
  | [] => ""
  | [n] => Number_toString n
  | n :: rest => Number_toString n +:+ separator +:+ Array_join rest separator
  end.

Module ParseInt.

Definition code (c : ascii) : Z := Z.of_N (N_of_ascii c).

(** White space and line terminators of one byte: TAB, LF, VT, FF, CR, SP. *)
Definition white1 (c : ascii) : bool :=
  let n := code c in ((9 <=? n) && (n <=? 13)) || (n =? 32).

(** U+00A0, encoded on two bytes. *)
Definition white2 (c1 c2 : ascii) : bool :=
  (code c1 =? 194) && (code c2 =? 160).

(** White space encoded on three bytes: U+1680, U+2000..U+200A, U+2028,
    U+2029, U+202F, U+205F, U+3000 and U+FEFF. *)
Definition white3 (c1 c2 c3 : ascii) : bool :=
  let a := code c1 in let b := code c2 in let c := code c3 in
  ((a =? 225) && (b =? 154) && (c =? 128))
  || ((a =? 226) && (b =? 128)
      && (((128 <=? c) && (c <=? 138)) || (c =? 168) || (c =? 169) || (c =? 175)))
  || ((a =? 226) && (b =? 129) && (c =? 159))
  || ((a =? 227) && (b =? 128) && (c =? 128))
  || ((a =? 239) && (b =? 187) && (c =? 191)).

(** [TrimString(inputString, start)]. *)
Fixpoint trim_start (s : string) : string :=
  match s with
  | EmptyString => s
  | String c1 s1 =>
      if white1 c1 then trim_start s1
      else match s1 with
           | EmptyString => s
           | String c2 s2 =>
               if white2 c1 c2 then trim_start s2
               else match s2 with
                    | EmptyString => s
                    | String c3 s3 =>
                        if white3 c1 c2 c3 then trim_start s3 else s
                    end
           end
  end.

(** The value of a character as a digit: 0..9, then a..z or A..Z for
    10..35. *)
Definition digit_value (c : ascii) : option Z :=
  let n := code c in
  if (48 <=? n) && (n <=? 57) then Some (n - 48)
  else if (97 <=? n) && (n <=? 122) then Some (n - 87)
  else if (65 <=? n) && (n <=? 90) then Some (n - 55)
  else None.

(** The digits of the longest prefix of [s] made of radix-[R] digits. *)
Fixpoint take_digits (R : Z) (s : string) : list Z :=
  match s with
  | EmptyString => []
  | String c rest =>
      match digit_value c with
      | Some d => if d <? R then d :: take_digits R rest else []
      | None => []
      end
  end.

(** The integer that a list of radix-[R] digits denotes. *)
Definition digits_value (R : Z) (digits : list Z) : Z :=
  fold_left (λ acc d, acc * R + d) digits 0.

Definition strip_sign (s : string) : Z * string :=
  match s with
  | String "-" rest => (-1, rest)
  | String "+" rest => (1, rest)
  | _ => (1, s)
  end.

Definition strip_hex_prefix (s : string) : option string :=
  match s with
  | String "0" (String "x" rest) => Some rest
  | String "0" (String "X" rest) => Some rest
  | _ => None
  end.

(** [parseInt(string, radix)], following the steps of the language
    specification; [None] is [NaN].  Both zeros are [0], and [radix] is
    taken as the 32-bit integer it already is at every call of the script. *)
Definition parseInt (input : string) (radix : Z) : option Z :=
  let '(sign, str) := strip_sign (trim_start input) in
  if (radix =? 0) || (radix =? 16) then
    let '(R, str) := match strip_hex_prefix str with
                     | Some rest => (16, rest)
                     | None => (if radix =? 0 then 10 else 16, str)
                     end in
    match take_digits R str with
    | [] => None
    | digits => Some (sign * digits_value R digits)
    end
  else if (radix <? 2) || (36 <? radix) then None
  else
    match take_digits radix str with
    | [] => None
    | digits => Some (sign * digits_value radix digits)
    end.

End ParseInt.

Export ParseInt (parseInt).


(** ** The configuration resolver *)

Abbreviation Env := (gmap string string).

Definition getApiOrigin (env : Env) : string :=
  or_else (env !! "BIGCOMMERCE_API_ORIGIN") "https://api.bigcommerce.com".

Definition getStoreHash (env : Env) : Completion string :=
  let storeHash := env !! "BIGCOMMERCE_STORE_HASH" in
  assert truthy_string storeHash "BIGCOMMERCE_STORE_HASH missing in env".

Definition getAccessToken (env : Env) : Completion string :=
  let accessToken := env !! "BIGCOMMERCE_ACCESS_TOKEN" in
  assert truthy_string accessToken "BIGCOMMERCE_ACCESS_TOKEN missing in env".

(** The source parses [channelId] once for the assertion and once more for
    the value it returns; [parseInt] is a function of its arguments, so the
    embedding returns the value the assertion has seen. *)
Definition getChannelId (env : Env) : Completion Z :=
  channelId ← assert truthy_string (env !! "BIGCOMMERCE_CHANNEL_ID")
                "BIGCOMMERCE_CHANNEL_ID missing in env";
  assert truthy_number (parseInt channelId 10)
    "BIGCOMMERCE_CHANNEL_ID must be a number".

(** ** JSON values and [JSON.stringify] *)

#[local] Unset Elimination Schemes.

Inductive Json : Type :=
  | JNumber (n : Z)
  | JString (s : string)
  | JArray (items : list Json)
  | JObject (properties : list (string * Json)).

#[local] Set Elimination Schemes.

Module Stringify.

Definition dquote : ascii := ascii_of_N 34.
Definition backslash : ascii := ascii_of_N 92.

Definition hex_digit (n : Z) : ascii :=
  ascii_of_N (Z.to_N (if n <? 10 then 48 + n else 87 + n)).

(** The escape of one byte inside a JSON string literal. *)
Definition escape (c : ascii) : string :=
  let n := Z.of_N (N_of_ascii c) in
  if (n =? 34) || (n =? 92) then String backslash (String c "")
  else if n =? 8 then String backslash "b"
  else if n =? 9 then String backslash "t"
  else if n =? 10 then String backslash "n"
  else if n =? 12 then String backslash "f"
  else if n =? 13 then String backslash "r"
  else if n <? 32 then
    String backslash
      ("u00" +:+ String (hex_digit (n / 16)) (String (hex_digit (n mod 16)) ""))
  else String c "".

Fixpoint escape_all (s : string) : string :=
  match s with
  | EmptyString => ""
  | String c rest => escape c +:+ escape_all rest
  end.

Definition quote (s : string) : string :=
  String dquote (escape_all s) +:+ String dquote "".

Fixpoint stringify (v : Json) : string :=
  match v with
  | JNumber n => Number_toString n
  | JString s => quote s
  | JArray items =>
      "[" +:+
      (fix elements (l : list Json) : string :=
         match l with
         | [] => ""
         | [x] => stringify x
         | x :: rest => stringify x +:+ "," +:+ elements rest
         end) items
      +:+ "]"
  | JObject properties =>
      "{" +:+
      (fix members (l : list (string * Json)) : string :=
         match l with
         | [] => ""
         | [(k, x)] => quote k +:+ ":" +:+ stringify x
         | (k, x) :: rest => quote k +:+ ":" +:+ stringify x +:+ "," +:+ members rest
         end) properties
      +:+ "}"
  end.

End Stringify.

Definition JSON_stringify : Json → string := Stringify.stringify.

(** ** The data model *)

(** [{ id: number }], what the script reads of a created tree. *)
Module Tree.
Record t : Type := mk { id : Z }.
End Tree.

(** [{ category_id: number; name: string; sort_order: number }]. *)
Module Category.
Record t : Type := mk { category_id : Z; name : string; sort_order : Z }.
End Category.

(** [{ name: string; sort_order: number; tree_id: number }], the object
    literal of [buildCategoriesForNewTree]. *)
Module NewCategory.
Record t : Type := mk { name : string; sort_order : Z; tree_id : Z }.

(** The own properties of the object literal, in the order it lists them. *)
Definition properties (c : t) : list (string * Json) :=
  [("name", JString (name c));
   ("sort_order", JNumber (sort_order c));
   ("tree_id", JNumber (tree_id c))].

Definition toJson (c : t) : Json := JObject (properties c).
End NewCategory.

(** [{ product_id: number; category_id: number }]. *)
Module CategoryAssignment.
Record t : Type := mk { product_id : Z; category_id : Z }.

Definition properties (a : t) : list (string * Json) :=
  [("product_id", JNumber (product_id a));
   ("category_id", JNumber (category_id a))].

Definition toJson (a : t) : Json := JObject (properties a).
End CategoryAssignment.

(** [{ product_id: number; channel_id: number }]. *)
Module ChannelAssignment.
Record t : Type := mk { product_id : Z; channel_id : Z }.

Definition properties (a : t) : list (string * Json) :=
  [("product_id", JNumber (product_id a));
   ("channel_id", JNumber (channel_id a))].

Definition toJson (a : t) : Json := JObject (properties a).
End ChannelAssignment.

(** [map.set(key, value)] for each entry of a list in turn: an entry whose
    key is already present replaces the value. *)
Definition Map_set_all `{Countable K} {V : Type}
    (m : gmap K V) (entries : list (K * V)) : gmap K V :=
  fold_left (λ m entry, <[entry.1 := entry.2]> m) entries m.

(** [new Map(entries)]: the entries are [set], one after the other, into an
    empty map. *)
Definition Map_new `{Countable K} {V : Type} (entries : list (K * V)) : gmap K V :=
  Map_set_all ∅ entries.

(** ** The pure transforms *)

Definition buildCategoriesForNewTree
    (categories : list Category.t) (newTreeId : Z) : list NewCategory.t :=
  map (λ c, {| NewCategory.name := Category.name c;
               NewCategory.sort_order := Category.sort_order c;
               NewCategory.tree_id := newTreeId |}) categories.

(** The callback that [buildProductCategoryAssignmentsForNewCategories]
    maps over the assignments. *)
Definition remapCategoryAssignment
    (categoriesMap : gmap Z string) (createdCategoriesMap : gmap string Z)
    (assign : CategoryAssignment.t) : Completion CategoryAssignment.t :=
  categoryName ←
    throw_if_falsy truthy_string
      (categoriesMap !! CategoryAssignment.category_id assign)
      (Error ("Stencil category name not found for category ID "
              +:+ Number_toString (CategoryAssignment.category_id assign)));
  newCategoryId ←
    throw_if_falsy truthy_number
      (createdCategoriesMap !! categoryName)
      (Error ("Catalyst category ID not found for category name "
              +:+ categoryName));
  Returned {| CategoryAssignment.product_id := CategoryAssignment.product_id assign;
              CategoryAssignment.category_id := newCategoryId |}.

Definition buildProductCategoryAssignmentsForNewCategories
    (productCategoryAssignments : list CategoryAssignment.t)
    (categoriesMap : gmap Z string) (createdCategoriesMap : gmap string Z)
  : Completion (list CategoryAssignment.t) :=
  Array_map (remapCategoryAssignment categoriesMap createdCategoriesMap)
            productCategoryAssignments.

Definition buildProductChannelAssignmentsForNewChannel
    (env : Env) (productChannelAssignments : list ChannelAssignment.t)
  : Completion (list ChannelAssignment.t) :=
  channelId ← getChannelId env;
  Returned (map (λ a, {| ChannelAssignment.product_id := ChannelAssignment.product_id a;
                         ChannelAssignment.channel_id := channelId |})
                productChannelAssignments).

(** ** The API client *)

Abbreviation Headers := (gmap string string).

(** The part of [RequestInit] that the script uses.  [headers] is a plain
    record of header names and values. *)
Module RequestInit.
Record t : Type := mk {
  headers : option Headers;
  method : option string;
  body : option string
}.

(** [{}], the default value of the [options] parameter. *)
Definition empty : t := mk None None None.
End RequestInit.

(** A call of [fetch]: the URL and the init record it is given. *)
Module Request.
Record t : Type := mk {
  url : string;
  headers : Headers;
  method : option string;
  body : option string
}.
End Request.

(** [{ ...target, ...source }]: a property of [source] replaces the
    property of [target] with the same key. *)
Definition spread (target source : Headers) : Headers := source ∪ target.

(** The arguments that [bigcommerce(path, options)] hands to [fetch]. *)
Definition bigcommerce_request (env : Env) (path : string)
    (options : RequestInit.t) : Completion Request.t :=
  let headers := default ∅ (RequestInit.headers options) in
  let apiOrigin := getApiOrigin env in
  storeHash ← getStoreHash env;
  accessToken ← getAccessToken env;
  Returned {|
    Request.url := apiOrigin +:+ "/stores/" +:+ storeHash +:+ path;
    Request.headers :=
      spread {[ "accept" := "application/json";
                "content-type" := "application/json";
                "x-auth-token" := accessToken ]} headers;
    Request.method := RequestInit.method options;
    Request.body := RequestInit.body options
  |}.

(** ** The script as a sequential program *)

(** What a run has done so far: the requests it has issued and the lines it
    has printed, oldest first. *)
Record World : Type := mkWorld {
  requests : list Request.t;
  console : list string
}.

Definition Script (A : Type) : Type := World → Completion A * World.

#[global] Instance Script_ret : MRet Script := λ A a w, (Returned a, w).

#[global] Instance Script_bind : MBind Script :=
  λ A B f m w, match m w with
               | (Returned a, w') => f a w'
               | (Thrown e, w') => (Thrown e, w')
               end.

#[global] Instance Script_fmap : FMap Script :=
  λ A B f m w, match m w with
               | (Returned a, w') => (Returned (f a), w')
               | (Thrown e, w') => (Thrown e, w')
               end.

(** A synchronous computation inside the script. *)
Definition lift {A : Type} (c : Completion A) : Script A := λ w, (c, w).

Definition console_log (line : string) : Script unit :=
  λ w, (Returned tt, {| requests := requests w; console := console w ++ [line] |}).

(** [{ data: ... }], the envelope of every response of the API. *)
Record Envelope (A : Type) : Type := mkEnvelope { data : A }.
Arguments mkEnvelope {A} data.
Arguments data {A} e.

Section Pipeline.

Variable env : Env.

(** The remote API is an external collaborator: [fetch_response] gives
    the outcome of a request from the requests issued before it, and the
    [json_*] functions give the outcome of [response.json()] read at the
    type the script casts it to. *)
Variable Response : Type.
Variable fetch_response : list Request.t → Request.t → Completion Response.
Variable json_trees : Response → Completion (Envelope (list Tree.t)).
Variable json_categories : Response → Completion (Envelope (list Category.t)).
Variable json_category_assignments :
  Response → Completion (Envelope (list CategoryAssignment.t)).
Variable json_channel_assignments :
  Response → Completion (Envelope (list ChannelAssignment.t)).

Definition fetch (request : Request.t) : Script Response :=
  λ w, (fetch_response (requests w) request,
        {| requests := requests w ++ [request]; console := console w |}).

Definition bigcommerce (path : string) (options : RequestInit.t)
  : Script Response :=
  request ← lift (bigcommerce_request env path options);
  fetch request.

Definition createCategoryTree : Script (Envelope (list Tree.t)) :=
  channelId ← lift (getChannelId env);
  response ← bigcommerce "/v3/catalog/trees"
    {| RequestInit.headers := None;
       RequestInit.method := Some "PUT";
       RequestInit.body := Some (JSON_stringify (JArray [
         JObject [("name", JString "Catalyst catalog tree");
                  ("channels", JArray [JNumber channelId])]])) |};
  lift (json_trees response).

Definition getCategoriesByTreeIds (treeIds : list Z)
  : Script (Envelope (list Category.t)) :=
  response ← bigcommerce
    ("/v3/catalog/trees/categories?tree_id:in=" +:+ Array_join treeIds ",")
    RequestInit.empty;
  lift (json_categories response).

Definition createCategories (categories : list NewCategory.t)
  : Script (Envelope (list Category.t)) :=
  response ← bigcommerce "/v3/catalog/trees/categories"
    {| RequestInit.headers := None;
       RequestInit.method := Some "POST";
       RequestInit.body :=
         Some (JSON_stringify (JArray (map NewCategory.toJson categories))) |};
  lift (json_categories response).

Definition getProductCategoryAssignmentsForCategoryIds (categoryIds : list Z)
  : Script (Envelope (list CategoryAssignment.t)) :=
  response ← bigcommerce
    ("/v3/catalog/products/category-assignments?category_id:in="
     +:+ Array_join categoryIds ",")
    RequestInit.empty;
  lift (json_category_assignments response).

Definition createProductCategoryAssignments
    (assignments : list CategoryAssignment.t) : Script unit :=
  _ ← bigcommerce "/v3/catalog/products/category-assignments"
    {| RequestInit.headers := None;
       RequestInit.method := Some "PUT";
       RequestInit.body :=
         Some (JSON_stringify
                 (JArray (map CategoryAssignment.toJson assignments))) |};
  mret tt.

Definition getProductChannelAssignments
  : Script (Envelope (list ChannelAssignment.t)) :=
  response ← bigcommerce "/v3/catalog/products/channel-assignments"
    RequestInit.empty;
  lift (json_channel_assignments response).

Definition createProductChannelAssignments
    (assignments : list ChannelAssignment.t) : Script unit :=
  _ ← bigcommerce "/v3/catalog/products/channel-assignments"
    {| RequestInit.headers := None;
       RequestInit.method := Some "PUT";
       RequestInit.body :=
         Some (JSON_stringify
                 (JArray (map ChannelAssignment.toJson assignments))) |};
  mret tt.

(** [newTree[0].id]: reading [id] of [undefined] throws. *)
Definition first_tree_id (newTree : list Tree.t) : Completion Z :=
  match newTree !! 0%nat with
  | Some tree => Returned (Tree.id tree)
  | None => Thrown (TypeError "undefined is not an object (evaluating 'newTree[0].id')")
  end.

(** The statements of the module, top to bottom. *)
Definition main : Script unit :=
  _ ← console_log "[INFO] Creating new category tree";
  newTree ← data <$> createCategoryTree;
  _ ← console_log "[SUCCESS] New category tree created successfully";

  _ ← console_log "[INFO] Fetching categories for tree id 1";
  categories ← data <$> getCategoriesByTreeIds [1];
  _ ← console_log "[SUCCESS] Categories fetched successfully";

  _ ← console_log "[INFO] Building categories for new tree";
  newTreeId ← lift (first_tree_id newTree);
  let categoriesForNewTree := buildCategoriesForNewTree categories newTreeId in
  _ ← console_log "[SUCCESS] Categories built successfully";

  _ ← console_log "[INFO] Creating categories for new tree";
  createdCategories ← data <$> createCategories categoriesForNewTree;
  _ ← console_log "[SUCCESS] Categories created successfully";

  _ ← console_log "[INFO] Fetching product category assignments...";
  productCategoryAssignments ← data <$>
    getProductCategoryAssignmentsForCategoryIds
      (map Category.category_id categories);
  _ ← console_log "[SUCCESS] Product category assignments fetched successfully";

  let categoriesMap :=
    Map_new (map (λ cat, (Category.category_id cat, Category.name cat)) categories) in
  let createdCategoriesMap :=
    Map_new (map (λ cat, (Category.name cat, Category.category_id cat))
                 createdCategories) in

  _ ← console_log "[INFO] Building Catalyst product category assignments...";
  catalystProductCategoryAssignments ←
    lift (buildProductCategoryAssignmentsForNewCategories
            productCategoryAssignments categoriesMap createdCategoriesMap);
  _ ← console_log "[SUCCESS] Built Catalyst product category assignments";

  _ ← console_log "[INFO] Creating Catalyst product category assignments...";
  _ ← createProductCategoryAssignments catalystProductCategoryAssignments;
  _ ← console_log "[SUCCESS] Created Catalyst product category assignments";

  _ ← console_log "[INFO] Fetching product channel assignments...";
  productChannelAssignments ← data <$> getProductChannelAssignments;
  _ ← console_log "[SUCCESS] Product channel assignments fetched successfully";

  _ ← console_log "[INFO] Building Catalyst product channel assignments...";
  catalystProductChannelAssignments ←
    lift (buildProductChannelAssignmentsForNewChannel env productChannelAssignments);
  _ ← console_log "[SUCCESS] Built Catalyst product channel assignments";

  _ ← console_log "[INFO] Creating Catalyst product channel assignments...";
  _ ← createProductChannelAssignments catalystProductChannelAssignments;
  console_log "[SUCCESS] Created Catalyst product channel assignments".

(** A run of the script starts with no request issued and nothing
    printed. *)
Definition run : Completion unit * World := main (mkWorld [] []).

End Pipeline.

(** Runs the script symbolically: unfolds the statements of [main] and
    splits on the outcome of every step that can throw, keeping the
    builders and the request constructor folded. *)
Ltac run_simpl :=
  cbn -[JSON_stringify Array_join bigcommerce_request getChannelId Map_new
        buildProductCategoryAssignmentsForNewCategories
        buildProductChannelAssignmentsForNewChannel
        buildCategoriesForNewTree first_tree_id] in *.

Ltac run_unfold :=
  unfold run, main, createCategoryTree, getCategoriesByTreeIds, createCategories,
    getProductCategoryAssignmentsForCategoryIds, createProductCategoryAssignments,
    getProductChannelAssignments, createProductChannelAssignments,
    bigcommerce, fetch, lift, console_log,
    mbind, Script_bind, fmap, Script_fmap, mret, Script_ret;
  run_simpl.

Ltac run_cases :=
  run_unfold; repeat (case_match; run_simpl; simplify_eq).

(** * Properties *)

(** ** [Array_map] *)

Section ArrayMap.

Context {A B : Type} (callback : A → Completion B).

Lemma Array_map_app_Returned (pre post : list A) (ys zs : list B) :
  Array_map callback pre = Returned ys →
  Array_map callback post = Returned zs →
  Array_map callback (pre ++ post) = Returned (ys ++ zs).
Proof.
  revert ys. induction pre as [|x pre IH]; intros ys Hpre Hpost; simpl in *.
  - by inversion Hpre.
  - destruct (callback x) as [y|e]; [|done].
    destruct (Array_map callback pre) as [ys'|e]; [|done].
    inversion Hpre; subst. by rewrite (IH ys' eq_refl Hpost).
Qed.

(** The first element on which the callback throws decides the exception
    of the whole call. *)
Lemma Array_map_first_Thrown (pre post : list A) (x : A) (ys : list B)
    (e : Exception) :
  Array_map callback pre = Returned ys →
  callback x = Thrown e →
  Array_map callback (pre ++ x :: post) = Thrown e.
Proof.
  revert ys. induction pre as [|x' pre IH]; intros ys Hpre Hx; simpl in *.
  - by rewrite Hx.
  - destruct (callback x') as [y|e']; [|done].
    destruct (Array_map callback pre) as [ys'|e'] eqn:Hrest; [|done].
    by rewrite (IH ys' eq_refl Hx).
Qed.

(** A returned array has one element for each element of the argument,
    the value the callback returns on it. *)
Lemma Array_map_Returned_Forall2 (array : list A) (ys : list B) :
  Array_map callback array = Returned ys ↔
  Forall2 (λ x y, callback x = Returned y) array ys.
Proof.
  split.
  - revert ys. induction array as [|x array IH]; intros ys Hmap; simpl in *.
    + injection Hmap as <-. constructor.
    + destruct (callback x) as [y|e] eqn:Hx; [|done].
      destruct (Array_map callback array) as [ys'|e]; [|done].
      injection Hmap as <-. constructor; [done | by apply IH].
  - induction 1 as [|x y array ys Hx _ IH]; simpl; [done|].
    by rewrite Hx, IH.
Qed.

(** The call throws as soon as the callback throws on some element. *)
Lemma Array_map_elem_Thrown (array : list A) (x : A) (e : Exception) :
  x ∈ array → callback x = Thrown e →
  ∃ x' e', x' ∈ array ∧ callback x' = Thrown e'
           ∧ Array_map callback array = Thrown e'.
Proof.
  induction array as [|x0 array IH]; intros Hin Hx.
  - by apply elem_of_nil in Hin.
  - simpl. destruct (callback x0) as [y|e0] eqn:Hx0.
    + apply elem_of_cons in Hin as [->|Hin]; [congruence|].
      destruct (IH Hin Hx) as (x' & e' & Hin' & Hx' & Hmap).
      exists x', e'. rewrite Hmap. split_and!; [by right | done | done].
    + exists x0, e0. split_and!; [by left | done | done].
Qed.

Lemma Array_map_total (array : list A) (f : A → B) :
  (∀ x, x ∈ array → callback x = Returned (f x)) →
  Array_map callback array = Returned (map f array).
Proof.
  induction array as [|x array IH]; intros Hall; simpl; [done|].
  rewrite (Hall x) by left.
  rewrite IH; [done|]. intros x' Hin. apply Hall. by right.
Qed.

End ArrayMap.

(** ** [Map_new] *)

Section MapNew.

Context `{Countable K} {V : Type}.

Lemma Map_set_all_notin (entries : list (K * V)) (m : gmap K V) (k : K) :
  k ∉ entries.*1 → Map_set_all m entries !! k = m !! k.
Proof.
  revert m. induction entries as [|[k' v'] entries IH]; intros m Hk; [done|].
  simpl in *. apply not_elem_of_cons in Hk as [Hne Hk].
  unfold Map_set_all in *. simpl. rewrite IH by done.
  by rewrite lookup_insert_ne.
Qed.

(** The binding of a key is the value of the last entry that has it. *)
Lemma Map_set_all_app (pre post : list (K * V)) (m : gmap K V) :
  Map_set_all m (pre ++ post) = Map_set_all (Map_set_all m pre) post.
Proof. apply fold_left_app. Qed.

(** The binding of a key is the value of the last entry that has it. *)
Lemma Map_new_lookup_last (pre post : list (K * V)) (k : K) (v : V) :
  k ∉ post.*1 → Map_new (pre ++ (k, v) :: post) !! k = Some v.
Proof.
  intros Hk. unfold Map_new. rewrite Map_set_all_app.
  change (Map_set_all ?m ((k, v) :: post)) with (Map_set_all (<[k:=v]> m) post).
  rewrite Map_set_all_notin by done. apply lookup_insert_eq.
Qed.

Lemma Map_new_lookup_None (entries : list (K * V)) (k : K) :
  k ∉ entries.*1 → Map_new entries !! k = None.
Proof. intros Hk. unfold Map_new. by rewrite Map_set_all_notin. Qed.

End MapNew.

(** ** Truthiness *)

Lemma truthy_string_true (s : string) : truthy_string s = true ↔ s ≠ "".
Proof. destruct s; simpl; split; done. Qed.

Lemma truthy_number_true (n : Z) : truthy_number n = true ↔ n ≠ 0.
Proof. unfold truthy_number. destruct (Z.eqb_spec n 0); simpl; split; done. Qed.

(** ** Remapping one product/category assignment *)

Section Remap.

Variable categoriesMap : gmap Z string.
Variable createdCategoriesMap : gmap string Z.

#[local] Abbreviation remap :=
  (remapCategoryAssignment categoriesMap createdCategoriesMap).

Lemma remap_Returned (assign : CategoryAssignment.t) (name : string) (newId : Z) :
  categoriesMap !! CategoryAssignment.category_id assign = Some name →
  name ≠ "" →
  createdCategoriesMap !! name = Some newId →
  newId ≠ 0 →
  remap assign
  = Returned (CategoryAssignment.mk (CategoryAssignment.product_id assign) newId).
Proof.
  intros Hname Hne Hid Hnz. unfold remapCategoryAssignment.
  rewrite Hname. simpl.
  apply truthy_string_true in Hne. rewrite Hne. simpl.
  rewrite Hid. simpl.
  apply truthy_number_true in Hnz. by rewrite Hnz.
Qed.

Lemma remap_Returned_inv (assign result : CategoryAssignment.t) :
  remap assign = Returned result →
  ∃ name newId,
    categoriesMap !! CategoryAssignment.category_id assign = Some name
    ∧ name ≠ ""
    ∧ createdCategoriesMap !! name = Some newId
    ∧ newId ≠ 0
    ∧ result = CategoryAssignment.mk (CategoryAssignment.product_id assign) newId.
Proof.
  unfold remapCategoryAssignment.
  destruct (categoriesMap !! _) as [name|] eqn:Hname; simpl; [|done].
  destruct (truthy_string name) eqn:Hne; simpl; [|done].
  destruct (createdCategoriesMap !! name) as [newId|] eqn:Hid; simpl; [|done].
  destruct (truthy_number newId) eqn:Hnz; simpl; [|done].
  intros [= <-]. exists name, newId.
  split_and!; [done | by apply truthy_string_true | done
              | by apply truthy_number_true | done].
Qed.

Lemma remap_absent_id (assign : CategoryAssignment.t) :
  categoriesMap !! CategoryAssignment.category_id assign = None →
  remap assign
  = Thrown (Error ("Stencil category name not found for category ID "
                   +:+ Number_toString (CategoryAssignment.category_id assign))).
Proof. intros Hname. unfold remapCategoryAssignment. by rewrite Hname. Qed.

Lemma remap_empty_name (assign : CategoryAssignment.t) :
  categoriesMap !! CategoryAssignment.category_id assign = Some "" →
  remap assign
  = Thrown (Error ("Stencil category name not found for category ID "
                   +:+ Number_toString (CategoryAssignment.category_id assign))).
Proof. intros Hname. unfold remapCategoryAssignment. by rewrite Hname. Qed.

Lemma remap_absent_name (assign : CategoryAssignment.t) (name : string) :
  categoriesMap !! CategoryAssignment.category_id assign = Some name →
  name ≠ "" →
  createdCategoriesMap !! name = None →
  remap assign
  = Thrown (Error ("Catalyst category ID not found for category name " +:+ name)).
Proof.
  intros Hname Hne Hid. unfold remapCategoryAssignment.
  rewrite Hname. simpl.
  apply truthy_string_true in Hne. rewrite Hne. simpl. by rewrite Hid.
Qed.

Lemma remap_zero_id (assign : CategoryAssignment.t) (name : string) :
  categoriesMap !! CategoryAssignment.category_id assign = Some name →
  name ≠ "" →
  createdCategoriesMap !! name = Some 0 →
  remap assign
  = Thrown (Error ("Catalyst category ID not found for category name " +:+ name)).
Proof.
  intros Hname Hne Hid. unfold remapCategoryAssignment.
  rewrite Hname. simpl.
  apply truthy_string_true in Hne. rewrite Hne. simpl. by rewrite Hid.
Qed.

(** Whatever the callback throws is an [Error]. *)
Lemma remap_Thrown_Error (assign : CategoryAssignment.t) (e : Exception) :
  remap assign = Thrown e → ∃ message, e = Error message.
Proof.
  unfold remapCategoryAssignment.
  destruct (categoriesMap !! _) as [name|]; simpl; [|intros [= <-]; eauto].
  destruct (truthy_string name); simpl; [|intros [= <-]; eauto].
  destruct (createdCategoriesMap !! name) as [newId|]; simpl;
    [|intros [= <-]; eauto].
  destruct (truthy_number newId); simpl; [done | intros [= <-]; eauto].
Qed.

(** An assignment that cannot be remapped makes the whole call throw. *)
Lemma build_Thrown_of_elem (assignments : list CategoryAssignment.t)
    (assign : CategoryAssignment.t) (e : Exception) :
  assign ∈ assignments → remap assign = Thrown e →
  ∃ message,
    buildProductCategoryAssignmentsForNewCategories
      assignments categoriesMap createdCategoriesMap = Thrown (Error message).
Proof.
  intros Hin Hthrown.
  destruct (Array_map_elem_Thrown _ _ _ _ Hin Hthrown) as (a' & e' & _ & Ha' & Hmap).
  destruct (remap_Thrown_Error _ _ Ha') as [message ->].
  by exists message.
Qed.

End Remap.

(** ** Product/category assignments for the new categories *)

(** C1 (as amended).  With [oldIdToName = {5: "Shoes"}] and
    [nameToNewId = {"Shoes": 42}] the input [[{product_id: 100,
    category_id: 5}]] yields exactly [[{product_id: 100, category_id: 42}]].
    More generally, when every assignment of the input has a category_id
    that the first map binds to a non-empty name, and that name is bound by
    the second map to a non-zero id, the function returns a list of the same
    length whose element at each index has the product_id of the input
    element and, as category_id, the second map's value for its name. *)
Theorem buildProductCategoryAssignments_remaps :
  buildProductCategoryAssignmentsForNewCategories
    [CategoryAssignment.mk 100 5] {[ 5 := "Shoes" ]} {[ "Shoes" := 42 ]}
  = Returned [CategoryAssignment.mk 100 42]
  ∧ ∀ (assignments : list CategoryAssignment.t)
      (oldIdToName : gmap Z string) (nameToNewId : gmap string Z),
      (∀ assign, assign ∈ assignments →
         ∃ name newId,
           oldIdToName !! CategoryAssignment.category_id assign = Some name
           ∧ name ≠ ""
           ∧ nameToNewId !! name = Some newId
           ∧ newId ≠ 0) →
      ∃ output,
        buildProductCategoryAssignmentsForNewCategories
          assignments oldIdToName nameToNewId = Returned output
        ∧ length output = length assignments
        ∧ ∀ (i : nat) assign, assignments !! i = Some assign →
            ∃ name newId,
              oldIdToName !! CategoryAssignment.category_id assign = Some name
              ∧ nameToNewId !! name = Some newId
              ∧ output !! i
                = Some (CategoryAssignment.mk
                          (CategoryAssignment.product_id assign) newId).
Proof.
  split; [reflexivity|].
  intros assignments oldIdToName nameToNewId Hall.
  unfold buildProductCategoryAssignmentsForNewCategories.
  induction assignments as [|assign assignments IH].
  - exists []. split_and!; [done | done | intros i assign; by rewrite lookup_nil].
  - destruct (Hall assign) as (name & newId & Hname & Hne & Hid & Hnz); [by left|].
    destruct IH as (output & Hmap & Hlen & Hout).
    { intros a Ha. apply Hall. by right. }
    exists (CategoryAssignment.mk (CategoryAssignment.product_id assign) newId :: output).
    simpl. rewrite (remap_Returned _ _ _ _ _ Hname Hne Hid Hnz), Hmap.
    split_and!; [done | by rewrite Hlen |].
    intros [|i] a; simpl.
    + intros [= <-]. by exists name, newId.
    + apply Hout.
Qed.

Lemma buildProductCategoryAssignments_remaps_witness :
  let assignments := [CategoryAssignment.mk 7 2; CategoryAssignment.mk 8 1] in
  let oldIdToName : gmap Z string := {[ 1 := "A"; 2 := "B" ]} in
  let nameToNewId : gmap string Z := {[ "A" := 10; "B" := 11 ]} in
  ∃ output,
    buildProductCategoryAssignmentsForNewCategories
      assignments oldIdToName nameToNewId = Returned output
    ∧ length output = length assignments
    ∧ ∀ (i : nat) assign, assignments !! i = Some assign →
        ∃ name newId,
          oldIdToName !! CategoryAssignment.category_id assign = Some name
          ∧ nameToNewId !! name = Some newId
          ∧ output !! i
            = Some (CategoryAssignment.mk
                      (CategoryAssignment.product_id assign) newId).
Proof.
  intros assignments oldIdToName nameToNewId.
  apply (proj2 buildProductCategoryAssignments_remaps).
  intros assign Hin.
  apply elem_of_cons in Hin as [->|Hin]; [exists "B", 11; by vm_compute|].
  apply elem_of_cons in Hin as [->|Hin]; [exists "A", 10; by vm_compute|].
  by apply elem_of_nil in Hin.
Defined.

(** C1, the counterexample.  A key that is present is not enough: with
    [oldIdToName = {5: ""}] and [nameToNewId = {"": 42}] the category_id of
    [{product_id: 100, category_id: 5}] is a key of the first map and its
    name a key of the second, and the function throws: it returns no list,
    so no element with category_id 42.  The same happens with
    [{5: "Shoes"}] and [{"Shoes": 0}]. *)
Lemma buildProductCategoryAssignments_present_keys_throw :
  (({[ 5 := "" ]} : gmap Z string) !! 5 = Some ""
   ∧ ({[ "" := 42 ]} : gmap string Z) !! "" = Some 42
   ∧ buildProductCategoryAssignmentsForNewCategories
       [CategoryAssignment.mk 100 5] {[ 5 := "" ]} {[ "" := 42 ]}
     = Thrown (Error "Stencil category name not found for category ID 5")
   ∧ ∀ output,
       buildProductCategoryAssignmentsForNewCategories
         [CategoryAssignment.mk 100 5] {[ 5 := "" ]} {[ "" := 42 ]}
       ≠ Returned output)
  ∧ (({[ 5 := "Shoes" ]} : gmap Z string) !! 5 = Some "Shoes"
     ∧ ({[ "Shoes" := 0 ]} : gmap string Z) !! "Shoes" = Some 0
     ∧ buildProductCategoryAssignmentsForNewCategories
         [CategoryAssignment.mk 100 5] {[ 5 := "Shoes" ]} {[ "Shoes" := 0 ]}
       = Thrown (Error "Catalyst category ID not found for category name Shoes")
     ∧ ∀ output,
         buildProductCategoryAssignmentsForNewCategories
           [CategoryAssignment.mk 100 5] {[ 5 := "Shoes" ]} {[ "Shoes" := 0 ]}
         ≠ Returned output).
Proof. by vm_compute. Qed.

(** C2 (as amended).  An input list that contains an assignment whose
    category_id is absent from the old-id-to-name map makes the function
    throw an [Error]: nothing is returned, neither a partial list nor a
    list with a default in place of the missing id; the same holds for an
    assignment whose name is absent from the name-to-new-id map.  The error
    is the one of the first assignment, in list order, that cannot be
    remapped: when the assignments before it can be remapped, an absent
    category_id gives the message that ends with that id, and an absent
    (non-empty) name the message that ends with that name. *)
Theorem buildProductCategoryAssignments_unknown_reference_aborts
    (oldIdToName : gmap Z string) (nameToNewId : gmap string Z) :
  (∀ assignments assign,
     assign ∈ assignments →
     (oldIdToName !! CategoryAssignment.category_id assign = None
      ∨ ∃ name, oldIdToName !! CategoryAssignment.category_id assign = Some name
                ∧ nameToNewId !! name = None) →
     ∃ message,
       buildProductCategoryAssignmentsForNewCategories
         assignments oldIdToName nameToNewId = Thrown (Error message))
  ∧ (∀ before assign after remapped,
       buildProductCategoryAssignmentsForNewCategories
         before oldIdToName nameToNewId = Returned remapped →
       oldIdToName !! CategoryAssignment.category_id assign = None →
       buildProductCategoryAssignmentsForNewCategories
         (before ++ assign :: after) oldIdToName nameToNewId
       = Thrown (Error ("Stencil category name not found for category ID "
                        +:+ Number_toString (CategoryAssignment.category_id assign))))
  ∧ (∀ before assign after remapped name,
       buildProductCategoryAssignmentsForNewCategories
         before oldIdToName nameToNewId = Returned remapped →
       oldIdToName !! CategoryAssignment.category_id assign = Some name →
       name ≠ "" →
       nameToNewId !! name = None →
       buildProductCategoryAssignmentsForNewCategories
         (before ++ assign :: after) oldIdToName nameToNewId
       = Thrown (Error ("Catalyst category ID not found for category name "
                        +:+ name))).
Proof.
  split_and!.
  - intros assignments assign Hin Habsent.
    assert (∃ e, remapCategoryAssignment oldIdToName nameToNewId assign = Thrown e)
      as [e He].
    { destruct Habsent as [Hid|(name & Hname & Hid)].
      - eexists. by apply remap_absent_id.
      - destruct (decide (name = "")) as [->|Hne].
        + eexists. by apply remap_empty_name.
        + eexists. by apply remap_absent_name. }
    by eapply build_Thrown_of_elem.
  - intros before assign after remapped Hbefore Hid.
    eapply Array_map_first_Thrown; [exact Hbefore | by apply remap_absent_id].
  - intros before assign after remapped name Hbefore Hname Hne Hid.
    eapply Array_map_first_Thrown; [exact Hbefore | by apply remap_absent_name].
Qed.

Lemma buildProductCategoryAssignments_unknown_reference_aborts_witness :
  buildProductCategoryAssignmentsForNewCategories
    ([CategoryAssignment.mk 1 5] ++ CategoryAssignment.mk 100 999 :: [])
    {[ 5 := "Shoes" ]} {[ "Shoes" := 42 ]}
  = Thrown (Error ("Stencil category name not found for category ID "
                   +:+ Number_toString 999))
  ∧ buildProductCategoryAssignmentsForNewCategories
      ([] ++ CategoryAssignment.mk 1 5 :: [CategoryAssignment.mk 100 999])
      {[ 5 := "Shoes" ]} ∅
    = Thrown (Error ("Catalyst category ID not found for category name "
                     +:+ "Shoes"))
  ∧ ∃ message,
      buildProductCategoryAssignmentsForNewCategories
        [CategoryAssignment.mk 100 999] {[ 5 := "Shoes" ]} {[ "Shoes" := 42 ]}
      = Thrown (Error message).
Proof.
  split_and!.
  - apply (proj1 (proj2 (buildProductCategoryAssignments_unknown_reference_aborts
                           {[ 5 := "Shoes" ]} {[ "Shoes" := 42 ]}))
             [CategoryAssignment.mk 1 5] (CategoryAssignment.mk 100 999) []
             [CategoryAssignment.mk 1 42]);
      by vm_compute.
  - apply (proj2 (proj2 (buildProductCategoryAssignments_unknown_reference_aborts
                           {[ 5 := "Shoes" ]} ∅))
             [] (CategoryAssignment.mk 1 5) [CategoryAssignment.mk 100 999]
             [] "Shoes");
      by vm_compute.
  - apply (proj1 (buildProductCategoryAssignments_unknown_reference_aborts
                    {[ 5 := "Shoes" ]} {[ "Shoes" := 42 ]})
             [CategoryAssignment.mk 100 999] (CategoryAssignment.mk 100 999));
      [by left | left; by vm_compute].
Defined.

(** C2, the counterexample.  The input [[{product_id: 1, category_id: 5},
    {product_id: 100, category_id: 999}]] contains an assignment whose
    category_id, 999, is absent from [oldIdToName = {5: "Shoes"}]; with an
    empty name-to-new-id map the function throws for the first assignment,
    and the message names "Shoes", not 999. *)
Lemma buildProductCategoryAssignments_error_names_first_failure :
  ({[ 5 := "Shoes" ]} : gmap Z string) !! 999 = None
  ∧ buildProductCategoryAssignmentsForNewCategories
      [CategoryAssignment.mk 1 5; CategoryAssignment.mk 100 999]
      {[ 5 := "Shoes" ]} ∅
    = Thrown (Error "Catalyst category ID not found for category name Shoes")
  ∧ buildProductCategoryAssignmentsForNewCategories
      [CategoryAssignment.mk 1 5; CategoryAssignment.mk 100 999]
      {[ 5 := "Shoes" ]} ∅
    ≠ Thrown (Error "Stencil category name not found for category ID 999").
Proof. by vm_compute. Qed.

(** C3.  The source categories [A] (id 1) and [B] (id 2) were created anew
    as [A] (id 10) and [B] (id 11); with the id-to-name map built from the
    former and the name-to-id map built from the latter, the assignment
    [{product_id: 7, category_id: 2}] is remapped to
    [{product_id: 7, category_id: 11}]. *)
Theorem remap_end_to_end :
  let categories :=
    [Category.mk 1 "A" 0; Category.mk 2 "B" 1] in
  let createdCategories :=
    [Category.mk 10 "A" 0; Category.mk 11 "B" 1] in
  let categoriesMap :=
    Map_new (map (λ cat, (Category.category_id cat, Category.name cat)) categories) in
  let createdCategoriesMap :=
    Map_new (map (λ cat, (Category.name cat, Category.category_id cat))
                 createdCategories) in
  buildProductCategoryAssignmentsForNewCategories
    [CategoryAssignment.mk 7 2] categoriesMap createdCategoriesMap
  = Returned [CategoryAssignment.mk 7 11].
Proof. reflexivity. Qed.

(** C9 (as amended).  When the created categories hold two categories with
    the same name, the name-to-new-id map built from them binds the name to
    the category_id of the later one, the last of that name: the earlier
    binding is replaced and nothing is thrown.  Every assignment that
    refers to that name is then remapped to the id of the later category,
    provided the name is not empty and that id is not 0. *)
Theorem createdCategoriesMap_later_duplicate_wins
    (createdCategories before between after : list Category.t)
    (earlier later : Category.t) :
  createdCategories = before ++ earlier :: between ++ later :: after →
  Category.name earlier = Category.name later →
  (∀ cat, cat ∈ after → Category.name cat ≠ Category.name later) →
  let createdCategoriesMap :=
    Map_new (map (λ cat, (Category.name cat, Category.category_id cat))
                 createdCategories) in
  createdCategoriesMap !! Category.name later = Some (Category.category_id later)
  ∧ ∀ (categoriesMap : gmap Z string) (assign : CategoryAssignment.t),
      categoriesMap !! CategoryAssignment.category_id assign
      = Some (Category.name later) →
      Category.name later ≠ "" →
      Category.category_id later ≠ 0 →
      remapCategoryAssignment categoriesMap createdCategoriesMap assign
      = Returned (CategoryAssignment.mk (CategoryAssignment.product_id assign)
                                        (Category.category_id later))
      ∧ buildProductCategoryAssignmentsForNewCategories
          [assign] categoriesMap createdCategoriesMap
        = Returned [CategoryAssignment.mk (CategoryAssignment.product_id assign)
                                          (Category.category_id later)].
Proof.
  intros -> Hsame Hlast createdCategoriesMap.
  assert (createdCategoriesMap !! Category.name later
          = Some (Category.category_id later)) as Hlookup.
  { subst createdCategoriesMap.
    replace (before ++ earlier :: between ++ later :: after)
      with ((before ++ earlier :: between) ++ later :: after)
      by (by rewrite <- app_assoc).
    rewrite map_app. simpl.
    apply Map_new_lookup_last.
    intros Hin. apply list_elem_of_fmap in Hin as ([k v] & Hk & Hin).
    apply list_elem_of_fmap in Hin as (cat & [= -> ->] & Hcat).
    simpl in Hk. by apply (Hlast cat). }
  split; [done|].
  intros categoriesMap assign Hname Hne Hnz.
  assert (remapCategoryAssignment categoriesMap createdCategoriesMap assign
          = Returned (CategoryAssignment.mk (CategoryAssignment.product_id assign)
                                            (Category.category_id later))) as Hremap
    by by apply (remap_Returned _ _ _ _ _ Hname Hne Hlookup Hnz).
  split; [done|].
  unfold buildProductCategoryAssignmentsForNewCategories. simpl.
  by rewrite Hremap.
Qed.

Lemma createdCategoriesMap_later_duplicate_wins_witness :
  let createdCategories := [Category.mk 10 "A" 0; Category.mk 11 "A" 1] in
  let createdCategoriesMap :=
    Map_new (map (λ cat, (Category.name cat, Category.category_id cat))
                 createdCategories) in
  createdCategoriesMap !! "A" = Some 11
  ∧ buildProductCategoryAssignmentsForNewCategories
      [CategoryAssignment.mk 7 1] {[ 1 := "A" ]} createdCategoriesMap
    = Returned [CategoryAssignment.mk 7 11].
Proof.
  intros createdCategories createdCategoriesMap.
  destruct (createdCategoriesMap_later_duplicate_wins
              createdCategories [] [] [] (Category.mk 10 "A" 0) (Category.mk 11 "A" 1))
    as [Hlookup Hremap].
  - reflexivity.
  - reflexivity.
  - intros cat Hin. by apply elem_of_nil in Hin.
  - split; [exact Hlookup|].
    apply (Hremap {[ 1 := "A" ]} (CategoryAssignment.mk 7 1)); by vm_compute.
Defined.

(** C9, the counterexample.  With the created categories
    [[{category_id: 10, name: "A"}, {category_id: 0, name: "A"}]] the map
    binds "A" to 0, the id of the later category, and the assignment
    [{product_id: 7, category_id: 1}], which refers to "A", is not remapped
    to that id: the function throws and returns no list. *)
Lemma createdCategoriesMap_later_duplicate_zero_throws :
  let createdCategories := [Category.mk 10 "A" 0; Category.mk 0 "A" 1] in
  let createdCategoriesMap :=
    Map_new (map (λ cat, (Category.name cat, Category.category_id cat))
                 createdCategories) in
  createdCategoriesMap !! "A" = Some 0
  ∧ buildProductCategoryAssignmentsForNewCategories
      [CategoryAssignment.mk 7 1] {[ 1 := "A" ]} createdCategoriesMap
    = Thrown (Error "Catalyst category ID not found for category name A")
  ∧ buildProductCategoryAssignmentsForNewCategories
      [CategoryAssignment.mk 7 1] {[ 1 := "A" ]} createdCategoriesMap
    ≠ Returned [CategoryAssignment.mk 7 0].
Proof. by vm_compute. Qed.

(** C10.  The two guards test truthiness, not presence.  An assignment
    whose category_id is bound to the empty name throws the "Stencil
    category name not found" error, and one whose name is bound to the new
    id 0 throws the "Catalyst category ID not found" error, although the
    key is present in the map; an input list that contains such an
    assignment makes the function throw instead of emitting the mapping. *)
Theorem falsy_lookup_throws
    (categoriesMap : gmap Z string) (createdCategoriesMap : gmap string Z)
    (assign : CategoryAssignment.t) :
  (categoriesMap !! CategoryAssignment.category_id assign = Some "" →
   remapCategoryAssignment categoriesMap createdCategoriesMap assign
   = Thrown (Error ("Stencil category name not found for category ID "
                    +:+ Number_toString (CategoryAssignment.category_id assign))))
  ∧ (∀ name,
       categoriesMap !! CategoryAssignment.category_id assign = Some name →
       name ≠ "" →
       createdCategoriesMap !! name = Some 0 →
       remapCategoryAssignment categoriesMap createdCategoriesMap assign
       = Thrown (Error ("Catalyst category ID not found for category name "
                        +:+ name)))
  ∧ (∀ assignments,
       assign ∈ assignments →
       (categoriesMap !! CategoryAssignment.category_id assign = Some ""
        ∨ ∃ name,
            categoriesMap !! CategoryAssignment.category_id assign = Some name
            ∧ createdCategoriesMap !! name = Some 0) →
       ∃ message,
         buildProductCategoryAssignmentsForNewCategories
           assignments categoriesMap createdCategoriesMap
         = Thrown (Error message)).
Proof.
  split_and!.
  - apply remap_empty_name.
  - intros name. apply remap_zero_id.
  - intros assignments Hin Hfalsy.
    assert (∃ e, remapCategoryAssignment categoriesMap createdCategoriesMap assign
                 = Thrown e) as [e He].
    { destruct Hfalsy as [Hname|(name & Hname & Hid)].
      - eexists. by apply remap_empty_name.
      - destruct (decide (name = "")) as [->|Hne].
        + eexists. by apply remap_empty_name.
        + eexists. by apply remap_zero_id. }
    by eapply build_Thrown_of_elem.
Qed.

Lemma falsy_lookup_throws_witness :
  remapCategoryAssignment {[ 5 := "" ]} {[ "" := 42 ]} (CategoryAssignment.mk 100 5)
  = Thrown (Error ("Stencil category name not found for category ID "
                   +:+ Number_toString 5))
  ∧ remapCategoryAssignment {[ 5 := "Shoes" ]} {[ "Shoes" := 0 ]}
      (CategoryAssignment.mk 100 5)
    = Thrown (Error ("Catalyst category ID not found for category name "
                     +:+ "Shoes"))
  ∧ ∃ message,
      buildProductCategoryAssignmentsForNewCategories
        [CategoryAssignment.mk 1 6; CategoryAssignment.mk 100 5]
        {[ 5 := "Shoes"; 6 := "Hats" ]} {[ "Shoes" := 0; "Hats" := 43 ]}
      = Thrown (Error message).
Proof.
  split_and!.
  - apply (proj1 (falsy_lookup_throws {[ 5 := "" ]} {[ "" := 42 ]}
                    (CategoryAssignment.mk 100 5))).
    by vm_compute.
  - apply (proj1 (proj2 (falsy_lookup_throws {[ 5 := "Shoes" ]} {[ "Shoes" := 0 ]}
                           (CategoryAssignment.mk 100 5))) "Shoes");
      by vm_compute.
  - apply (proj2 (proj2 (falsy_lookup_throws
                           {[ 5 := "Shoes"; 6 := "Hats" ]}
                           {[ "Shoes" := 0; "Hats" := 43 ]}
                           (CategoryAssignment.mk 100 5)))
             [CategoryAssignment.mk 1 6; CategoryAssignment.mk 100 5]).
    + right; by left.
    + right. exists "Shoes". by vm_compute.
Defined.

(** ** [parseInt] on decimal numerals *)

Module ParseIntFacts.
Import ParseInt.

#[local] Abbreviation step := (λ acc d : Z, acc * 10 + d).









Lemma parseInt_empty (radix : Z) : parseInt "" radix = None.
Proof.
  unfold parseInt. simpl.
  destruct ((radix =? 0) || (radix =? 16)); [by destruct (radix =? 0)|].
  by destruct ((radix <? 2) || (36 <? radix)).
Qed.

End ParseIntFacts.

(** ** The configuration resolver *)

Lemma assert_Returned {A : Type} (truthy_value : A → bool) (a : A)
    (message : string) :
  truthy_value a = true → assert truthy_value (Some a) message = Returned a.
Proof. intros Ha. unfold assert, throw_if_falsy. by rewrite Ha. Qed.

Lemma getStoreHash_Returned (env : Env) (storeHash : string) :
  env !! "BIGCOMMERCE_STORE_HASH" = Some storeHash → storeHash ≠ "" →
  getStoreHash env = Returned storeHash.
Proof.
  intros Hset Hne. unfold getStoreHash. rewrite Hset.
  by apply assert_Returned, truthy_string_true.
Qed.

Lemma getAccessToken_Returned (env : Env) (accessToken : string) :
  env !! "BIGCOMMERCE_ACCESS_TOKEN" = Some accessToken → accessToken ≠ "" →
  getAccessToken env = Returned accessToken.
Proof.
  intros Hset Hne. unfold getAccessToken. rewrite Hset.
  by apply assert_Returned, truthy_string_true.
Qed.


(** What [getChannelId] returns is a non-zero integer that [parseInt] reads
    in the variable. *)
Lemma getChannelId_Returned_inv (env : Env) (n : Z) :
  getChannelId env = Returned n →
  ∃ channelId,
    env !! "BIGCOMMERCE_CHANNEL_ID" = Some channelId ∧ channelId ≠ ""
    ∧ parseInt channelId 10 = Some n ∧ n ≠ 0.
Proof.
  unfold getChannelId, assert, throw_if_falsy.
  destruct (env !! "BIGCOMMERCE_CHANNEL_ID") as [channelId|]; simpl; [|done].
  destruct (truthy_string channelId) eqn:Hne; simpl; [|done].
  destruct (parseInt channelId 10) as [m|] eqn:Hparse; [|done].
  destruct (truthy_number m) eqn:Hnz; [|done].
  intros [= ->]. exists channelId.
  split_and!; [done | by apply truthy_string_true | done
              | by apply truthy_number_true].
Qed.

(** The only exceptions of [getChannelId] are its two assertion failures. *)
Lemma getChannelId_Thrown_inv (env : Env) (e : Exception) :
  getChannelId env = Thrown e →
  e = AssertionError "BIGCOMMERCE_CHANNEL_ID missing in env"
  ∨ e = AssertionError "BIGCOMMERCE_CHANNEL_ID must be a number".
Proof.
  unfold getChannelId, assert, throw_if_falsy.
  destruct (env !! "BIGCOMMERCE_CHANNEL_ID") as [channelId|]; simpl;
    [|intros [= <-]; by left].
  destruct (truthy_string channelId); simpl; [|intros [= <-]; by left].
  destruct (parseInt channelId 10) as [m|]; [|intros [= <-]; by right].
  destruct (truthy_number m); [done | intros [= <-]; by right].
Qed.

(** ** The script stops at a configuration error *)

Section PipelineFacts.

Context (env : Env) {Response : Type}.
Context (fetch_response : list Request.t → Request.t → Completion Response).
Context (json_trees : Response → Completion (Envelope (list Tree.t))).
Context (json_categories : Response → Completion (Envelope (list Category.t))).
Context (json_category_assignments :
           Response → Completion (Envelope (list CategoryAssignment.t))).
Context (json_channel_assignments :
           Response → Completion (Envelope (list ChannelAssignment.t))).



End PipelineFacts.

(** ** The channel identifier *)

Section ChannelId.

Context (env : Env) {Response : Type}.
Context (fetch_response : list Request.t → Request.t → Completion Response).
Context (json_trees : Response → Completion (Envelope (list Tree.t))).
Context (json_categories : Response → Completion (Envelope (list Category.t))).
Context (json_category_assignments :
           Response → Completion (Envelope (list CategoryAssignment.t))).
Context (json_channel_assignments :
           Response → Completion (Envelope (list ChannelAssignment.t))).


End ChannelId.


(** C7.  The value "0" parses to the integer 0, and [getChannelId] then
    throws its "must be a number" assertion error instead of returning 0;
    so does every value that [parseInt] reads as 0. *)
Theorem getChannelId_zero_rejected (env : Env) :
  parseInt "0" 10 = Some 0
  ∧ (env !! "BIGCOMMERCE_CHANNEL_ID" = Some "0" →
     getChannelId env
     = Thrown (AssertionError "BIGCOMMERCE_CHANNEL_ID must be a number"))
  ∧ (∀ channelId,
       env !! "BIGCOMMERCE_CHANNEL_ID" = Some channelId →
       parseInt channelId 10 = Some 0 →
       getChannelId env
       = Thrown (AssertionError "BIGCOMMERCE_CHANNEL_ID must be a number")).
Proof.
  assert (∀ channelId,
            env !! "BIGCOMMERCE_CHANNEL_ID" = Some channelId →
            parseInt channelId 10 = Some 0 →
            getChannelId env
            = Thrown (AssertionError "BIGCOMMERCE_CHANNEL_ID must be a number"))
    as Hzero.
  { intros channelId Hset Hparse. unfold getChannelId. rewrite Hset.
    assert (channelId ≠ "") as Hne.
    { intros ->. by rewrite ParseIntFacts.parseInt_empty in Hparse. }
    rewrite assert_Returned by by apply truthy_string_true.
    simpl. by rewrite Hparse. }
  split_and!; [done | | done].
  intros Hset. by apply (Hzero "0").
Qed.

Lemma getChannelId_zero_rejected_witness :
  getChannelId {[ "BIGCOMMERCE_CHANNEL_ID" := "0" ]}
  = Thrown (AssertionError "BIGCOMMERCE_CHANNEL_ID must be a number")
  ∧ getChannelId {[ "BIGCOMMERCE_CHANNEL_ID" := " -000" ]}
    = Thrown (AssertionError "BIGCOMMERCE_CHANNEL_ID must be a number").
Proof.
  split.
  - apply (proj1 (proj2 (getChannelId_zero_rejected
                           {[ "BIGCOMMERCE_CHANNEL_ID" := "0" ]}))).
    by vm_compute.
  - apply (proj2 (proj2 (getChannelId_zero_rejected
                           {[ "BIGCOMMERCE_CHANNEL_ID" := " -000" ]})) " -000");
      by vm_compute.
Defined.

(** [parseInt] reads the longest numeral at the start of the string, after
    white space and a sign, and ignores what follows it. *)
Example parseInt_reads_a_prefix :
  parseInt "12abc" 10 = Some 12
  ∧ parseInt "  42" 10 = Some 42
  ∧ parseInt "1.5" 10 = Some 1
  ∧ parseInt "abc" 10 = None
  ∧ getChannelId {[ "BIGCOMMERCE_CHANNEL_ID" := "12abc" ]} = Returned 12.
Proof. by vm_compute. Qed.

(** ** Product/channel assignments for the new channel *)

(** C4.  When the environment configures the target channel, that is when
    [getChannelId] returns [channelId], the function returns for every
    input list a list of the same length whose elements have, index by
    index, the product_id of the input element and [channelId] as
    channel_id.  The channel_id values of the input play no part: two
    inputs with the same product_ids give the same output. *)
Theorem buildProductChannelAssignments_targets_channel
    (env : Env) (channelId : Z) (assignments : list ChannelAssignment.t) :
  getChannelId env = Returned channelId →
  ∃ output,
    buildProductChannelAssignmentsForNewChannel env assignments = Returned output
    ∧ length output = length assignments
    ∧ Forall2 (λ a o, ChannelAssignment.product_id o = ChannelAssignment.product_id a
                      ∧ ChannelAssignment.channel_id o = channelId)
              assignments output
    ∧ ∀ others,
        map ChannelAssignment.product_id others
        = map ChannelAssignment.product_id assignments →
        buildProductChannelAssignmentsForNewChannel env others = Returned output.
Proof.
  intros Hchannel. unfold buildProductChannelAssignmentsForNewChannel.
  rewrite Hchannel. simpl. eexists. split; [reflexivity|].
  split_and!.
  - by rewrite length_map.
  - induction assignments as [|a assignments IH]; simpl; by constructor.
  - intros others Hsame. f_equal.
    revert others Hsame.
    induction assignments as [|a assignments IH]; intros [|o others] Hsame;
      simpl in *; try done.
    injection Hsame as Hpid Hrest. rewrite Hpid. f_equal. by apply IH.
Qed.

Lemma buildProductChannelAssignments_targets_channel_witness :
  ∃ output,
    buildProductChannelAssignmentsForNewChannel
      {[ "BIGCOMMERCE_CHANNEL_ID" := "3" ]}
      [ChannelAssignment.mk 100 1; ChannelAssignment.mk 101 2]
    = Returned output
    ∧ output = [ChannelAssignment.mk 100 3; ChannelAssignment.mk 101 3].
Proof.
  destruct (buildProductChannelAssignments_targets_channel
              {[ "BIGCOMMERCE_CHANNEL_ID" := "3" ]} 3
              [ChannelAssignment.mk 100 1; ChannelAssignment.mk 101 2])
    as (output & Hbuild & _); [by vm_compute|].
  exists output. split; [exact Hbuild|].
  vm_compute in Hbuild. by injection Hbuild as <-.
Defined.

(** ** Categories for the new tree *)

(** C5.  The list that [buildCategoriesForNewTree] returns has the length
    of its input; its elements have, index by index, the name and the
    sort_order of the input element and [newTreeId] as tree_id; and none
    of them has a property named category_id. *)
Theorem buildCategoriesForNewTree_projects
    (categories : list Category.t) (newTreeId : Z) :
  let output := buildCategoriesForNewTree categories newTreeId in
  length output = length categories
  ∧ Forall2 (λ c o, NewCategory.name o = Category.name c
                    ∧ NewCategory.sort_order o = Category.sort_order c
                    ∧ NewCategory.tree_id o = newTreeId)
            categories output
  ∧ Forall (λ o, NewCategory.tree_id o = newTreeId
                 ∧ "category_id" ∉ (NewCategory.properties o).*1)
           output.
Proof.
  unfold buildCategoriesForNewTree. split_and!.
  - by rewrite length_map.
  - induction categories as [|c categories IH]; simpl; by constructor.
  - apply Forall_forall. intros o Hin.
    apply list_elem_of_fmap in Hin as (c & -> & _). simpl.
    split; [done|].
    intros Hkey. repeat (apply elem_of_cons in Hkey as [Hkey|Hkey]; [done|]).
    by apply elem_of_nil in Hkey.
Qed.

(** ** The API client *)

Section ApiClient.

Context (env : Env) {Response : Type}.
Context (fetch_response : list Request.t → Request.t → Completion Response).

(** C8.  With the store hash and the access token configured, a call of
    the API client with any path issues one request, to the URL made of
    the API origin, "/stores/", the store hash and the path.  Without
    caller headers the request carries accept and content-type
    "application/json" and the access token as x-auth-token; a header
    that the caller supplies is sent with the caller's value, also when
    it has the name of one of these three, and the other defaults stay. *)
Theorem bigcommerce_request_shape
    (path storeHash accessToken : string) (options : RequestInit.t) (w : World) :
  env !! "BIGCOMMERCE_STORE_HASH" = Some storeHash → storeHash ≠ "" →
  env !! "BIGCOMMERCE_ACCESS_TOKEN" = Some accessToken → accessToken ≠ "" →
  ∃ request,
    bigcommerce env Response fetch_response path options w
    = (fetch_response (requests w) request,
       mkWorld (requests w ++ [request]) (console w))
    ∧ Request.url request
      = getApiOrigin env +:+ "/stores/" +:+ storeHash +:+ path
    ∧ (RequestInit.headers options = None →
       Request.headers request !! "accept" = Some "application/json"
       ∧ Request.headers request !! "content-type" = Some "application/json"
       ∧ Request.headers request !! "x-auth-token" = Some accessToken)
    ∧ (∀ callerHeaders name value,
         RequestInit.headers options = Some callerHeaders →
         callerHeaders !! name = Some value →
         Request.headers request !! name = Some value)
    ∧ (∀ callerHeaders name,
         RequestInit.headers options = Some callerHeaders →
         callerHeaders !! name = None →
         Request.headers request !! name
         = ({[ "accept" := "application/json";
               "content-type" := "application/json";
               "x-auth-token" := accessToken ]} : Headers) !! name).
Proof.
  intros Hhash Hhash_ne Htoken Htoken_ne.
  unfold bigcommerce, bigcommerce_request, mbind, Script_bind, lift, fetch.
  rewrite (getStoreHash_Returned _ _ Hhash Hhash_ne). simpl.
  rewrite (getAccessToken_Returned _ _ Htoken Htoken_ne). simpl.
  eexists. split; [reflexivity|]. simpl. split; [reflexivity|].
  unfold spread. split_and!.
  - intros ->. simpl. rewrite (left_id_L ∅ (∪)). by split_and!.
  - intros callerHeaders name value -> Hcaller. simpl.
    by apply lookup_union_Some_l.
  - intros callerHeaders name -> Hcaller. simpl.
    by rewrite lookup_union_r.
Qed.

End ApiClient.

Lemma getApiOrigin_default (env : Env) :
  env !! "BIGCOMMERCE_API_ORIGIN" = None →
  getApiOrigin env = "https://api.bigcommerce.com".
Proof. intros Hunset. unfold getApiOrigin. by rewrite Hunset. Qed.

Lemma getApiOrigin_override (env : Env) (origin : string) :
  env !! "BIGCOMMERCE_API_ORIGIN" = Some origin → origin ≠ "" →
  getApiOrigin env = origin.
Proof.
  intros Hset Hne. unfold getApiOrigin, or_else. rewrite Hset.
  apply truthy_string_true in Hne. by rewrite Hne.
Qed.

Lemma bigcommerce_request_shape_witness :
  let env : Env := {[ "BIGCOMMERCE_STORE_HASH" := "abc123";
                      "BIGCOMMERCE_ACCESS_TOKEN" := "secret" ]} in
  ∃ request,
    bigcommerce env unit (λ _ _, Returned tt) "/v3/catalog/trees"
      (RequestInit.mk (Some {[ "accept" := "text/plain" ]}) None None)
      (mkWorld [] [])
    = (Returned tt, mkWorld [request] [])
    ∧ Request.url request
      = "https://api.bigcommerce.com/stores/abc123/v3/catalog/trees"
    ∧ Request.headers request !! "accept" = Some "text/plain"
    ∧ Request.headers request !! "x-auth-token" = Some "secret".
Proof.
  intros env.
  destruct (bigcommerce_request_shape env (λ _ _, Returned tt)
              "/v3/catalog/trees" "abc123" "secret"
              (RequestInit.mk (Some {[ "accept" := "text/plain" ]}) None None)
              (mkWorld [] []))
    as (request & Hcall & Hurl & _ & Hcaller & Hdefault); [by vm_compute..|].
  exists request. split_and!.
  - exact Hcall.
  - rewrite Hurl. by vm_compute.
  - by apply (Hcaller {[ "accept" := "text/plain" ]}).
  - rewrite (Hdefault {[ "accept" := "text/plain" ]}); by vm_compute.
Defined.

(** ** A run of the whole script *)

(** A run against a store that holds the categories of C3, one
    product/category assignment and two product/channel assignments: the
    script issues seven requests, in this order, remaps the category
    assignment to the new category 11 and moves both products to channel 3,
    whatever channel they were on. *)
Example run_to_completion :
  let env : Env := {[ "BIGCOMMERCE_STORE_HASH" := "abc123";
                      "BIGCOMMERCE_ACCESS_TOKEN" := "secret";
                      "BIGCOMMERCE_CHANNEL_ID" := "3" ]} in
  let json_categories (response : Request.t) :=
    Returned (mkEnvelope
      (match Request.method response with
       | Some _ => [Category.mk 10 "A" 0; Category.mk 11 "B" 1]
       | None => [Category.mk 1 "A" 0; Category.mk 2 "B" 1]
       end)) in
  let result :=
    run env Request.t (λ _ request, Returned request)
      (λ _, Returned (mkEnvelope [Tree.mk 55]))
      json_categories
      (λ _, Returned (mkEnvelope [CategoryAssignment.mk 7 2]))
      (λ _, Returned (mkEnvelope [ChannelAssignment.mk 7 1;
                                  ChannelAssignment.mk 8 4])) in
  result.1 = Returned tt
  ∧ map (λ request, (Request.method request, Request.url request))
        (requests result.2)
    = [(Some "PUT", "https://api.bigcommerce.com/stores/abc123/v3/catalog/trees");
       (None, "https://api.bigcommerce.com/stores/abc123/v3/catalog/trees/categories?tree_id:in=1");
       (Some "POST", "https://api.bigcommerce.com/stores/abc123/v3/catalog/trees/categories");
       (None, "https://api.bigcommerce.com/stores/abc123/v3/catalog/products/category-assignments?category_id:in=1,2");
       (Some "PUT", "https://api.bigcommerce.com/stores/abc123/v3/catalog/products/category-assignments");
       (None, "https://api.bigcommerce.com/stores/abc123/v3/catalog/products/channel-assignments");
       (Some "PUT", "https://api.bigcommerce.com/stores/abc123/v3/catalog/products/channel-assignments")]
  ∧ Request.body <$> requests result.2 !! 2%nat
    = Some (Some (JSON_stringify
                    (JArray [NewCategory.toJson (NewCategory.mk "A" 0 55);
                             NewCategory.toJson (NewCategory.mk "B" 1 55)])))
  ∧ Request.body <$> requests result.2 !! 4%nat
    = Some (Some (JSON_stringify
                    (JArray [CategoryAssignment.toJson (CategoryAssignment.mk 7 11)])))
  ∧ Request.body <$> requests result.2 !! 6%nat
    = Some (Some (JSON_stringify
                    (JArray [ChannelAssignment.toJson (ChannelAssignment.mk 7 3);
                             ChannelAssignment.toJson (ChannelAssignment.mk 8 3)])))
  ∧ length (console result.2) = 20%nat.
Proof. by vm_compute. Qed.

(** * Further properties of the script *)

(** ** Success and composition of the category remap *)

(** X1.  [buildProductCategoryAssignmentsForNewCategories] returns a list
    exactly when every assignment can be remapped: the output pairs up with
    the input, index by index, each output element keeping the product_id
    and carrying a non-zero category_id that the name-to-new-id map gives
    for the non-empty name that the old-id-to-name map gives for the input
    category_id. *)
Theorem buildProductCategoryAssignments_Returned_iff
    (assignments output : list CategoryAssignment.t)
    (categoriesMap : gmap Z string) (createdCategoriesMap : gmap string Z) :
  buildProductCategoryAssignmentsForNewCategories
    assignments categoriesMap createdCategoriesMap = Returned output
  ↔ Forall2
      (λ assign result,
         CategoryAssignment.product_id result = CategoryAssignment.product_id assign
         ∧ CategoryAssignment.category_id result ≠ 0
         ∧ ∃ name,
             name ≠ ""
             ∧ categoriesMap !! CategoryAssignment.category_id assign = Some name
             ∧ createdCategoriesMap !! name
               = Some (CategoryAssignment.category_id result))
      assignments output.
Proof.
  unfold buildProductCategoryAssignmentsForNewCategories.
  rewrite Array_map_Returned_Forall2.
  split; intros Hall; eapply Forall2_impl; try exact Hall; simpl.
  - intros assign result Hremap.
    apply remap_Returned_inv in Hremap
      as (name & newId & Hname & Hne & Hid & Hnz & ->).
    simpl. split_and!; [done | done |]. by exists name.
  - intros assign [pid cid] (Hpid & Hnz & name & Hne & Hname & Hid).
    simpl in *. subst pid.
    by apply (remap_Returned _ _ _ _ _ Hname Hne Hid Hnz).
Qed.

(** X2.  On a concatenation the function behaves as on the first part
    followed by the second: it returns the concatenation of the two
    outputs, and an exception of the first part hides whatever the second
    part would do. *)
Theorem buildProductCategoryAssignments_app
    (first second : list CategoryAssignment.t)
    (categoriesMap : gmap Z string) (createdCategoriesMap : gmap string Z) :
  buildProductCategoryAssignmentsForNewCategories
    (first ++ second) categoriesMap createdCategoriesMap
  = (remappedFirst ← buildProductCategoryAssignmentsForNewCategories
                        first categoriesMap createdCategoriesMap;
     remappedSecond ← buildProductCategoryAssignmentsForNewCategories
                         second categoriesMap createdCategoriesMap;
     Returned (remappedFirst ++ remappedSecond)).
Proof.
  unfold buildProductCategoryAssignmentsForNewCategories.
  induction first as [|assign first IH]; simpl.
  - by destruct (Array_map _ second).
  - destruct (remapCategoryAssignment _ _ assign) as [result|e]; simpl; [|done].
    rewrite IH.
    destruct (Array_map _ first) as [remappedFirst|e]; simpl; [|done].
    by destruct (Array_map _ second).
Qed.

(** ** The two lookup maps *)

Section MapNewLookup.

Context `{Countable K} {V : Type}.

(** Setting one more entry at the end inserts it over the map of the
    entries before it. *)
Lemma Map_new_snoc (entries : list (K * V)) (k : K) (v : V) :
  Map_new (entries ++ [(k, v)]) = <[k:=v]> (Map_new entries).
Proof. unfold Map_new. by rewrite Map_set_all_app. Qed.

(** With distinct keys no entry is replaced. *)
Lemma Map_new_lookup_NoDup (entries : list (K * V)) (k : K) (v : V) :
  NoDup entries.*1 → (k, v) ∈ entries → Map_new entries !! k = Some v.
Proof.
  intros Hnodup Hin.
  apply list_elem_of_split in Hin as (pre & post & ->).
  apply Map_new_lookup_last.
  rewrite fmap_app in Hnodup. apply NoDup_app in Hnodup as (_ & _ & Hpost).
  simpl in Hpost. by apply NoDup_cons in Hpost as [Hk _].
Qed.

(** X3.  The map built by [new Map(entries)] binds exactly the keys of the
    entries; a binding of the map is one of the entries; and when the keys
    of the entries are distinct, every entry is a binding of the map. *)
Theorem Map_new_lookup_spec (entries : list (K * V)) :
  (∀ k, Map_new entries !! k = None ↔ k ∉ entries.*1)
  ∧ (∀ k v, Map_new entries !! k = Some v → (k, v) ∈ entries)
  ∧ (NoDup entries.*1 →
     ∀ k v, (k, v) ∈ entries → Map_new entries !! k = Some v).
Proof.
  split_and!.
  - intros k. induction entries as [|[k' v'] entries IH] using rev_ind.
    + split; [intros _ Hin; by apply elem_of_nil in Hin | done].
    + rewrite Map_new_snoc, fmap_app, not_elem_of_app. simpl.
      destruct (decide (k' = k)) as [->|Hne].
      * rewrite lookup_insert_eq. split; [done|].
        intros [_ Hk]. contradict Hk. by left.
      * rewrite lookup_insert_ne by done. rewrite IH.
        split; [intros Hk; split; [done|] | by intros [Hk _]].
        intros Hin. apply list_elem_of_singleton in Hin. congruence.
  - intros k v. induction entries as [|[k' v'] entries IH] using rev_ind.
    + done.
    + rewrite Map_new_snoc, elem_of_app.
      destruct (decide (k' = k)) as [->|Hne].
      * rewrite lookup_insert_eq. intros [= ->]. right. by left.
      * rewrite lookup_insert_ne by done. intros Hlookup. left. by apply IH.
  - intros Hnodup k v Hin. by apply Map_new_lookup_NoDup.
Qed.

End MapNewLookup.

Lemma Map_new_lookup_spec_witness :
  Map_new [(1, "A"); (2, "B")] !! 2 = Some "B".
Proof.
  apply (proj2 (proj2 (Map_new_lookup_spec [(1, "A"); (2, "B")]))).
  - apply NoDup_cons. split; [|apply NoDup_singleton].
    intros Hin. by apply list_elem_of_singleton in Hin.
  - right. by left.
Defined.

(** ** Remapping by name across the two trees *)

(** X4.  Let the source categories have distinct ids and distinct,
    non-empty names, and let the created categories carry the same names
    in the same order, with non-zero ids.  Then every list of assignments
    that refer to source categories is remapped without an exception, and
    each assignment goes from the source category at some position to the
    created category at the same position, keeping its product_id. *)
Theorem remap_follows_created_categories
    (categories createdCategories : list Category.t)
    (assignments : list CategoryAssignment.t) :
  NoDup (map Category.category_id categories) →
  NoDup (map Category.name categories) →
  Forall (λ cat, Category.name cat ≠ "") categories →
  map Category.name createdCategories = map Category.name categories →
  Forall (λ cat, Category.category_id cat ≠ 0) createdCategories →
  (∀ assign, assign ∈ assignments →
     CategoryAssignment.category_id assign
     ∈ map Category.category_id categories) →
  ∃ output,
    buildProductCategoryAssignmentsForNewCategories assignments
      (Map_new (map (λ cat, (Category.category_id cat, Category.name cat))
                    categories))
      (Map_new (map (λ cat, (Category.name cat, Category.category_id cat))
                    createdCategories))
    = Returned output
    ∧ Forall2
        (λ assign result,
           CategoryAssignment.product_id result
           = CategoryAssignment.product_id assign
           ∧ ∃ (i : nat) old new,
               categories !! i = Some old
               ∧ createdCategories !! i = Some new
               ∧ Category.category_id old = CategoryAssignment.category_id assign
               ∧ Category.category_id new = CategoryAssignment.category_id result)
        assignments output.
Proof.
  intros Hids Hnames Hnonempty Hsame Hnonzero Hrefer.
  set (categoriesMap := Map_new (map _ categories)).
  set (createdCategoriesMap := Map_new (map _ createdCategories)).
  assert (∀ assign, assign ∈ assignments →
            ∃ (i : nat) old new,
              categories !! i = Some old
              ∧ createdCategories !! i = Some new
              ∧ Category.category_id old = CategoryAssignment.category_id assign
              ∧ remapCategoryAssignment categoriesMap createdCategoriesMap assign
                = Returned (CategoryAssignment.mk
                              (CategoryAssignment.product_id assign)
                              (Category.category_id new))) as Hremap.
  { intros assign Hin.
    destruct (proj1 (list_elem_of_fmap _ _ _) (Hrefer assign Hin))
      as (old & Hold & Hold_in).
    apply list_elem_of_lookup in Hold_in as [i Hi].
    assert (createdCategories !! i ≫= (λ cat, Some (Category.name cat))
            = Some (Category.name old)) as Hnew.
    { change (createdCategories !! i ≫= _)
        with (Category.name <$> createdCategories !! i).
      rewrite <- list_lookup_fmap.
      change (Category.name <$> createdCategories)
        with (map Category.name createdCategories).
      rewrite Hsame.
      change (map Category.name categories) with (Category.name <$> categories).
      by rewrite list_lookup_fmap, Hi. }
    destruct (createdCategories !! i) as [new|] eqn:Hi'; simpl in Hnew; [|done].
    injection Hnew as Hname.
    exists i, old, new. split_and!; [done | done | done |].
    apply remap_Returned with (name := Category.name old).
    - apply Map_new_lookup_NoDup.
      + by rewrite <- list_fmap_compose.
      + apply list_elem_of_fmap. exists old. split; [by rewrite Hold|].
        by apply list_elem_of_lookup_2 in Hi.
    - eapply (proj1 (Forall_forall _ _) Hnonempty).
      by apply list_elem_of_lookup_2 in Hi.
    - apply Map_new_lookup_NoDup.
      + rewrite <- list_fmap_compose.
        change (NoDup (map Category.name createdCategories)).
        by rewrite Hsame.
      + apply list_elem_of_fmap. exists new. split; [by rewrite Hname|].
        by apply list_elem_of_lookup_2 in Hi'.
    - eapply (proj1 (Forall_forall _ _) Hnonzero).
      by apply list_elem_of_lookup_2 in Hi'. }
  clear Hrefer. unfold buildProductCategoryAssignmentsForNewCategories.
  induction assignments as [|assign assignments IH].
  - exists []. by split; [|constructor].
  - destruct (Hremap assign) as (i & old & new & Hi & Hi' & Hold & Hassign);
      [by left|].
    destruct IH as (output & Hmap & Hall).
    { intros a Ha. apply Hremap. by right. }
    eexists. simpl. rewrite Hassign, Hmap. split; [done|].
    constructor; [|done]. simpl. split; [done|].
    by exists i, old, new.
Qed.

Lemma remap_follows_created_categories_witness :
  ∃ output,
    buildProductCategoryAssignmentsForNewCategories
      [CategoryAssignment.mk 7 2; CategoryAssignment.mk 9 1]
      (Map_new (map (λ cat, (Category.category_id cat, Category.name cat))
                    [Category.mk 1 "A" 0; Category.mk 2 "B" 1]))
      (Map_new (map (λ cat, (Category.name cat, Category.category_id cat))
                    [Category.mk 10 "A" 0; Category.mk 11 "B" 1]))
    = Returned output
    ∧ length output = 2%nat.
Proof.
  destruct (remap_follows_created_categories
              [Category.mk 1 "A" 0; Category.mk 2 "B" 1]
              [Category.mk 10 "A" 0; Category.mk 11 "B" 1]
              [CategoryAssignment.mk 7 2; CategoryAssignment.mk 9 1])
    as (output & Hbuild & Hall).
  - by apply (bool_decide_unpack _).
  - by apply (bool_decide_unpack _).
  - repeat constructor; done.
  - reflexivity.
  - repeat constructor; done.
  - intros assign Hin.
    repeat (apply elem_of_cons in Hin as [->|Hin];
            [by apply (bool_decide_unpack _)|]).
    by apply elem_of_nil in Hin.
  - exists output. split; [done|].
    by rewrite <- (Forall2_length _ _ _ Hall).
Defined.

(** ** What [parseInt] accepts around a numeral *)

Module ParseIntPrefix.
Import ParseInt.








End ParseIntPrefix.

(** ** The configuration resolver, continued *)



(** X6.  Whatever [getChannelId] returns is a non-zero integer that
    [parseInt] reads, in base 10, in the non-empty value of
    BIGCOMMERCE_CHANNEL_ID; and the only exceptions it throws are its two
    assertion errors. *)
Theorem getChannelId_outcomes (env : Env) :
  (∀ n, getChannelId env = Returned n →
        n ≠ 0
        ∧ ∃ channelId,
            env !! "BIGCOMMERCE_CHANNEL_ID" = Some channelId
            ∧ channelId ≠ ""
            ∧ parseInt channelId 10 = Some n)
  ∧ (∀ e, getChannelId env = Thrown e →
          e = AssertionError "BIGCOMMERCE_CHANNEL_ID missing in env"
          ∨ e = AssertionError "BIGCOMMERCE_CHANNEL_ID must be a number").
Proof.
  split.
  - intros n Hn.
    apply getChannelId_Returned_inv in Hn as (channelId & Hset & Hne & Hparse & Hnz).
    split; [done|]. by exists channelId.
  - apply getChannelId_Thrown_inv.
Qed.

Lemma getChannelId_outcomes_witness :
  (12 ≠ 0
   ∧ ∃ channelId,
       ({[ "BIGCOMMERCE_CHANNEL_ID" := "12" ]} : Env) !! "BIGCOMMERCE_CHANNEL_ID"
       = Some channelId
       ∧ channelId ≠ ""
       ∧ parseInt channelId 10 = Some 12)
  ∧ (AssertionError "BIGCOMMERCE_CHANNEL_ID missing in env"
     = AssertionError "BIGCOMMERCE_CHANNEL_ID missing in env"
     ∨ AssertionError "BIGCOMMERCE_CHANNEL_ID missing in env"
       = AssertionError "BIGCOMMERCE_CHANNEL_ID must be a number").
Proof.
  split.
  - apply (proj1 (getChannelId_outcomes {[ "BIGCOMMERCE_CHANNEL_ID" := "12" ]}) 12).
    by vm_compute.
  - apply (proj2 (getChannelId_outcomes ∅)). by vm_compute.
Defined.

(** X7.  [getApiOrigin] never returns the empty string: an override that
    is set but empty is ignored like an unset one, and the result is either
    the default origin or the non-empty value of BIGCOMMERCE_API_ORIGIN. *)
Theorem getApiOrigin_never_empty (env : Env) :
  getApiOrigin env ≠ ""
  ∧ (env !! "BIGCOMMERCE_API_ORIGIN" = Some "" →
     getApiOrigin env = "https://api.bigcommerce.com")
  ∧ (getApiOrigin env = "https://api.bigcommerce.com"
     ∨ env !! "BIGCOMMERCE_API_ORIGIN" = Some (getApiOrigin env)).
Proof.
  unfold getApiOrigin, or_else.
  destruct (env !! "BIGCOMMERCE_API_ORIGIN") as [[|c origin]|]; simpl;
    split_and!; try done; by (left + right).
Qed.

Lemma getApiOrigin_never_empty_witness :
  getApiOrigin {[ "BIGCOMMERCE_API_ORIGIN" := "" ]}
  = "https://api.bigcommerce.com".
Proof.
  apply (proj1 (proj2 (getApiOrigin_never_empty
                         {[ "BIGCOMMERCE_API_ORIGIN" := "" ]}))).
  by vm_compute.
Defined.

Section ApiClientErrors.

Context (env : Env) {Response : Type}.
Context (fetch_response : list Request.t → Request.t → Completion Response).

(** X8.  A call of the API client with the store hash unset or empty
    throws the store-hash assertion error, whatever the access token is;
    with the store hash set and the access token unset or empty it throws
    the access-token assertion error.  In both cases no request is issued:
    the world is left as it was. *)
Theorem bigcommerce_missing_config_issues_nothing
    (path : string) (options : RequestInit.t) (w : World) :
  (env !! "BIGCOMMERCE_STORE_HASH" = None
   ∨ env !! "BIGCOMMERCE_STORE_HASH" = Some "" →
   bigcommerce env Response fetch_response path options w
   = (Thrown (AssertionError "BIGCOMMERCE_STORE_HASH missing in env"), w))
  ∧ (∀ storeHash,
       env !! "BIGCOMMERCE_STORE_HASH" = Some storeHash → storeHash ≠ "" →
       env !! "BIGCOMMERCE_ACCESS_TOKEN" = None
       ∨ env !! "BIGCOMMERCE_ACCESS_TOKEN" = Some "" →
       bigcommerce env Response fetch_response path options w
       = (Thrown (AssertionError "BIGCOMMERCE_ACCESS_TOKEN missing in env"), w)).
Proof.
  unfold bigcommerce, bigcommerce_request, mbind, Script_bind, lift.
  split.
  - intros Hhash. unfold getStoreHash, assert, throw_if_falsy.
    by destruct Hhash as [->| ->].
  - intros storeHash Hhash Hne Htoken.
    rewrite (getStoreHash_Returned _ _ Hhash Hne). simpl.
    unfold getAccessToken, assert, throw_if_falsy.
    by destruct Htoken as [->| ->].
Qed.

End ApiClientErrors.

Lemma bigcommerce_missing_config_issues_nothing_witness :
  bigcommerce {[ "BIGCOMMERCE_ACCESS_TOKEN" := "secret" ]} unit
    (λ _ _, Returned tt) "/v3/catalog/trees" RequestInit.empty (mkWorld [] [])
  = (Thrown (AssertionError "BIGCOMMERCE_STORE_HASH missing in env"), mkWorld [] [])
  ∧ bigcommerce {[ "BIGCOMMERCE_STORE_HASH" := "abc123" ]} unit
      (λ _ _, Returned tt) "/v3/catalog/trees" RequestInit.empty (mkWorld [] [])
    = (Thrown (AssertionError "BIGCOMMERCE_ACCESS_TOKEN missing in env"),
       mkWorld [] []).
Proof.
  split.
  - apply (proj1 (bigcommerce_missing_config_issues_nothing
                    {[ "BIGCOMMERCE_ACCESS_TOKEN" := "secret" ]}
                    (λ _ _, Returned tt) "/v3/catalog/trees" RequestInit.empty
                    (mkWorld [] []))).
    left. by vm_compute.
  - apply (proj2 (bigcommerce_missing_config_issues_nothing
                    {[ "BIGCOMMERCE_STORE_HASH" := "abc123" ]}
                    (λ _ _, Returned tt) "/v3/catalog/trees" RequestInit.empty
                    (mkWorld [] [])) "abc123");
      [by vm_compute | done | left; by vm_compute].
Defined.

(** ** Product/channel assignments, continued *)

(** [buildProductChannelAssignmentsForNewChannel] resolves the channel
    before it looks at its input: it throws exactly the exception of
    [getChannelId], for every input list, the empty one included. *)
Lemma buildProductChannelAssignments_Thrown_iff
    (env : Env) (assignments : list ChannelAssignment.t) (e : Exception) :
  buildProductChannelAssignmentsForNewChannel env assignments = Thrown e
  ↔ getChannelId env = Thrown e.
Proof.
  unfold buildProductChannelAssignmentsForNewChannel.
  destruct (getChannelId env) as [channelId|e']; simpl; split; congruence.
Qed.

(** X9.  The function is idempotent: applied to a list that it has
    returned, it returns that list again. *)
Theorem buildProductChannelAssignments_idempotent
    (env : Env) (assignments output : list ChannelAssignment.t) :
  buildProductChannelAssignmentsForNewChannel env assignments = Returned output →
  buildProductChannelAssignmentsForNewChannel env output = Returned output.
Proof.
  unfold buildProductChannelAssignmentsForNewChannel.
  destruct (getChannelId env) as [channelId|e]; simpl; [|done].
  intros [= <-]. f_equal. by rewrite map_map.
Qed.

Lemma buildProductChannelAssignments_idempotent_witness :
  buildProductChannelAssignmentsForNewChannel
    {[ "BIGCOMMERCE_CHANNEL_ID" := "3" ]}
    [ChannelAssignment.mk 100 3; ChannelAssignment.mk 101 3]
  = Returned [ChannelAssignment.mk 100 3; ChannelAssignment.mk 101 3].
Proof.
  apply (buildProductChannelAssignments_idempotent
           {[ "BIGCOMMERCE_CHANNEL_ID" := "3" ]}
           [ChannelAssignment.mk 100 1; ChannelAssignment.mk 101 2]).
  by vm_compute.
Defined.

(** ** Every run of the script *)

(** The request that the API client builds when no caller headers are
    given. *)
Lemma bigcommerce_request_Returned_inv
    (env : Env) (path : string) (options : RequestInit.t) (request : Request.t) :
  bigcommerce_request env path options = Returned request →
  RequestInit.headers options = None →
  ∃ storeHash accessToken,
    env !! "BIGCOMMERCE_STORE_HASH" = Some storeHash ∧ storeHash ≠ ""
    ∧ env !! "BIGCOMMERCE_ACCESS_TOKEN" = Some accessToken ∧ accessToken ≠ ""
    ∧ request
      = {| Request.url := getApiOrigin env +:+ "/stores/" +:+ storeHash +:+ path;
           Request.headers := {[ "accept" := "application/json";
                                 "content-type" := "application/json";
                                 "x-auth-token" := accessToken ]};
           Request.method := RequestInit.method options;
           Request.body := RequestInit.body options |}.
Proof.
  unfold bigcommerce_request, getStoreHash, getAccessToken, assert, throw_if_falsy.
  intros Hrequest Hheaders. rewrite Hheaders in Hrequest.
  destruct (env !! "BIGCOMMERCE_STORE_HASH") as [storeHash|]; simpl in *; [|done].
  destruct (truthy_string storeHash) eqn:Hhash; simpl in *; [|done].
  destruct (env !! "BIGCOMMERCE_ACCESS_TOKEN") as [accessToken|]; simpl in *; [|done].
  destruct (truthy_string accessToken) eqn:Htoken; simpl in *; [|done].
  injection Hrequest as <-. exists storeHash, accessToken.
  split_and!; [done | by apply truthy_string_true | done
              | by apply truthy_string_true |].
  unfold spread. by rewrite (left_id_L ∅ (∪)).
Qed.

Section EveryRun.

Context (env : Env) {Response : Type}.
Context (fetch_response : list Request.t → Request.t → Completion Response).
Context (json_trees : Response → Completion (Envelope (list Tree.t))).
Context (json_categories : Response → Completion (Envelope (list Category.t))).
Context (json_category_assignments :
           Response → Completion (Envelope (list CategoryAssignment.t))).
Context (json_channel_assignments :
           Response → Completion (Envelope (list ChannelAssignment.t))).

#[local] Abbreviation the_run :=
  (run env Response fetch_response json_trees json_categories
       json_category_assignments json_channel_assignments).

(** X10.  Whatever the remote API answers, every request that a run of the
    script issues goes to a URL under the API origin and the configured,
    non-empty store hash, and carries exactly three headers: accept and
    content-type "application/json" and the configured, non-empty access
    token as x-auth-token. *)
Theorem run_requests_authenticated (request : Request.t) :
  request ∈ requests the_run.2 →
  ∃ storeHash accessToken path,
    env !! "BIGCOMMERCE_STORE_HASH" = Some storeHash ∧ storeHash ≠ ""
    ∧ env !! "BIGCOMMERCE_ACCESS_TOKEN" = Some accessToken ∧ accessToken ≠ ""
    ∧ Request.url request
      = getApiOrigin env +:+ "/stores/" +:+ storeHash +:+ path
    ∧ Request.headers request
      = {[ "accept" := "application/json";
           "content-type" := "application/json";
           "x-auth-token" := accessToken ]}.
Proof.
  assert (∀ path options,
            bigcommerce_request env path options = Returned request →
            RequestInit.headers options = None →
            ∃ storeHash accessToken path,
              env !! "BIGCOMMERCE_STORE_HASH" = Some storeHash ∧ storeHash ≠ ""
              ∧ env !! "BIGCOMMERCE_ACCESS_TOKEN" = Some accessToken
              ∧ accessToken ≠ ""
              ∧ Request.url request
                = getApiOrigin env +:+ "/stores/" +:+ storeHash +:+ path
              ∧ Request.headers request
                = {[ "accept" := "application/json";
                     "content-type" := "application/json";
                     "x-auth-token" := accessToken ]}) as Hbuilt.
  { intros path options Hrequest Hheaders.
    destruct (bigcommerce_request_Returned_inv _ _ _ _ Hrequest Hheaders)
      as (storeHash & accessToken & Hhash & Hhash_ne & Htoken & Htoken_ne & ->).
    by exists storeHash, accessToken, path. }
  run_cases; intros Hin;
    repeat (apply elem_of_cons in Hin as [->|Hin]; [by eapply Hbuilt|]);
    by apply elem_of_nil in Hin.
Qed.

(** X11.  Whatever the remote API answers, a run issues at most seven
    requests, and their methods follow the fixed order PUT, GET, POST, GET,
    PUT, GET, PUT (a GET being a request without method): the methods of
    the requests issued are a prefix of that list.  A run that returns has
    issued all seven. *)
Theorem run_request_order :
  let result :=
    run env Response fetch_response json_trees json_categories
        json_category_assignments json_channel_assignments in
  map Request.method (requests result.2)
  `prefix_of` [Some "PUT"; None; Some "POST"; None; Some "PUT"; None; Some "PUT"]
  ∧ (result.1 = Returned tt → length (requests result.2) = 7%nat).
Proof.
  intros result. subst result.
  assert (∀ path options request,
            bigcommerce_request env path options = Returned request →
            Request.method request = RequestInit.method options) as Hmethod.
  { intros path options request. unfold bigcommerce_request.
    destruct (getStoreHash env); simpl; [|done].
    destruct (getAccessToken env); simpl; [|done]. by intros [= <-]. }
  run_cases; cbn [requests map length];
    repeat match goal with
           | H : bigcommerce_request _ _ _ = Returned _ |- _ =>
               apply Hmethod in H; simpl in H; rewrite H; clear H
           end;
    (split; [by eexists | done]).
Qed.


End EveryRun.

Lemma run_requests_authenticated_witness :
  ∃ storeHash accessToken path,
    "https://api.bigcommerce.com/stores/abc123/v3/catalog/trees"
    = "https://api.bigcommerce.com" +:+ "/stores/" +:+ storeHash +:+ path
    ∧ storeHash ≠ "" ∧ accessToken ≠ "".
Proof.
  pose (env := ({[ "BIGCOMMERCE_STORE_HASH" := "abc123";
                   "BIGCOMMERCE_ACCESS_TOKEN" := "secret";
                   "BIGCOMMERCE_CHANNEL_ID" := "3" ]} : Env)).
  destruct (run_requests_authenticated env
              (λ _ request, Returned request)
              (λ _, Returned (mkEnvelope [])) (λ _, Returned (mkEnvelope []))
              (λ _, Returned (mkEnvelope [])) (λ _, Returned (mkEnvelope []))
              (Request.mk
                 "https://api.bigcommerce.com/stores/abc123/v3/catalog/trees"
                 {[ "accept" := "application/json";
                    "content-type" := "application/json";
                    "x-auth-token" := "secret" ]}
                 (Some "PUT")
                 (Some (JSON_stringify (JArray [
                    JObject [("name", JString "Catalyst catalog tree");
                             ("channels", JArray [JNumber 3])]])))))
    as (storeHash & accessToken & path & _ & Hhash & _ & Htoken & Hurl & _).
  - vm_compute. by left.
  - exists storeHash, accessToken, path. by split_and!.
Defined.

Lemma run_request_order_witness :
  length (requests
            (run {[ "BIGCOMMERCE_STORE_HASH" := "abc123";
                    "BIGCOMMERCE_ACCESS_TOKEN" := "secret";
                    "BIGCOMMERCE_CHANNEL_ID" := "3" ]} Request.t
                 (λ _ request, Returned request)
                 (λ _, Returned (mkEnvelope [Tree.mk 55]))
                 (λ _, Returned (mkEnvelope []))
                 (λ _, Returned (mkEnvelope []))
                 (λ _, Returned (mkEnvelope []))).2) = 7%nat.
Proof.
  apply (proj2 (run_request_order _ _ _ _ _ _)). by vm_compute.
Defined.


(** ** Runs against a store that answers *)

Section AnsweringStore.

Context (env : Env) {Response : Type}.
Context (fetch_response : list Request.t → Request.t → Completion Response).
Context (json_trees : Response → Completion (Envelope (list Tree.t))).
Context (json_categories : Response → Completion (Envelope (list Category.t))).
Context (json_category_assignments :
           Response → Completion (Envelope (list CategoryAssignment.t))).
Context (json_channel_assignments :
           Response → Completion (Envelope (list ChannelAssignment.t))).

(** The configuration is complete. *)
Context (storeHash accessToken : string) (channelId : Z).
Hypothesis store_hash_set :
  env !! "BIGCOMMERCE_STORE_HASH" = Some storeHash ∧ storeHash ≠ "".
Hypothesis access_token_set :
  env !! "BIGCOMMERCE_ACCESS_TOKEN" = Some accessToken ∧ accessToken ≠ "".
Hypothesis channel_set : getChannelId env = Returned channelId.

(** The store answers every request, and its answers read as: [trees] for
    the created tree, [categories] for a fetch of categories and
    [createdCategories] for their creation, [assignments] and
    [channelAssignments] for the two fetches of assignments. *)
Context (respond : Request.t → Response).
Context (trees : list Tree.t) (categories createdCategories : list Category.t).
Context (assignments : list CategoryAssignment.t).
Context (channelAssignments : list ChannelAssignment.t).
Hypothesis fetch_answers :
  ∀ history request, fetch_response history request = Returned (respond request).
Hypothesis trees_answer :
  ∀ request, json_trees (respond request) = Returned (mkEnvelope trees).
Hypothesis categories_answer :
  ∀ request, Request.method request = None →
    json_categories (respond request) = Returned (mkEnvelope categories).
Hypothesis created_answer :
  ∀ request, Request.method request = Some "POST" →
    json_categories (respond request) = Returned (mkEnvelope createdCategories).
Hypothesis assignments_answer :
  ∀ request,
    json_category_assignments (respond request) = Returned (mkEnvelope assignments).
Hypothesis channel_assignments_answer :
  ∀ request,
    json_channel_assignments (respond request)
    = Returned (mkEnvelope channelAssignments).

#[local] Abbreviation the_run :=
  (run env Response fetch_response json_trees json_categories
       json_category_assignments json_channel_assignments).

(** The request of the API client for a path, a method and a body. *)
#[local] Abbreviation api_request path method body :=
  {| Request.url := getApiOrigin env +:+ "/stores/" +:+ storeHash +:+ path;
     Request.headers := {[ "accept" := "application/json";
                           "content-type" := "application/json";
                           "x-auth-token" := accessToken ]};
     Request.method := method;
     Request.body := body |}.

#[local] Abbreviation create_tree_request :=
  (api_request "/v3/catalog/trees" (Some "PUT")
     (Some (JSON_stringify (JArray [
        JObject [("name", JString "Catalyst catalog tree");
                 ("channels", JArray [JNumber channelId])]])))).

#[local] Abbreviation get_categories_request :=
  (api_request ("/v3/catalog/trees/categories?tree_id:in=" +:+ Array_join [1] ",")
     None None).

#[local] Abbreviation create_categories_request newTreeId :=
  (api_request "/v3/catalog/trees/categories" (Some "POST")
     (Some (JSON_stringify
              (JArray (map NewCategory.toJson
                           (buildCategoriesForNewTree categories newTreeId)))))).

#[local] Abbreviation get_category_assignments_request :=
  (api_request
     ("/v3/catalog/products/category-assignments?category_id:in="
      +:+ Array_join (map Category.category_id categories) ",")
     None None).

#[local] Abbreviation categoriesMap :=
  (Map_new (map (λ cat, (Category.category_id cat, Category.name cat))
                categories)).

#[local] Abbreviation createdCategoriesMap :=
  (Map_new (map (λ cat, (Category.name cat, Category.category_id cat))
                createdCategories)).

Lemma bigcommerce_request_configured (path : string) (method body : option string) :
  bigcommerce_request env path (RequestInit.mk None method body)
  = Returned (api_request path method body).
Proof.
  destruct store_hash_set as [Hhash Hhash_ne].
  destruct access_token_set as [Htoken Htoken_ne].
  unfold bigcommerce_request.
  rewrite (getStoreHash_Returned _ _ Hhash Hhash_ne). simpl.
  rewrite (getAccessToken_Returned _ _ Htoken Htoken_ne). simpl.
  unfold spread. by rewrite (left_id_L ∅ (∪)).
Qed.

#[local] Ltac answer :=
  repeat (first [ rewrite channel_set
                | rewrite bigcommerce_request_configured
                | rewrite fetch_answers
                | rewrite trees_answer
                | rewrite categories_answer by done
                | rewrite created_answer by done
                | rewrite assignments_answer
                | rewrite channel_assignments_answer ];
          run_simpl).

(** X13.  When the answer to the creation of the tree holds no tree, the
    run throws a [TypeError] on reading the id of the first tree.  It has
    then issued two requests, the creation of the tree and the fetch of the
    categories of tree 1, and no category has been created. *)
Theorem run_stops_without_tree :
  let result :=
    run env Response fetch_response json_trees json_categories
        json_category_assignments json_channel_assignments in
  trees = [] →
  ∃ message,
    result.1 = Thrown (TypeError message)
    ∧ requests result.2 = [create_tree_request; get_categories_request].
Proof.
  intros result ->. subst result. run_unfold. unfold RequestInit.empty. answer.
  unfold first_tree_id. simpl. by eexists.
Qed.

(** X14.  When an assignment of the store cannot be remapped, the run ends
    with the exception of
    [buildProductCategoryAssignmentsForNewCategories].  By then it has
    issued four requests: the tree and the categories have been created,
    and no assignment has been written. *)
Theorem run_stops_at_unmappable_assignment
    (tree : Tree.t) (otherTrees : list Tree.t) (e : Exception) :
  trees = tree :: otherTrees →
  buildProductCategoryAssignmentsForNewCategories
    assignments categoriesMap createdCategoriesMap = Thrown e →
  the_run.1 = Thrown e
  ∧ requests the_run.2
    = [create_tree_request;
       get_categories_request;
       create_categories_request (Tree.id tree);
       get_category_assignments_request].
Proof.
  intros -> Hbuild. run_unfold. unfold RequestInit.empty. answer.
  unfold first_tree_id. simpl. run_simpl. answer.
  rewrite Hbuild. by run_simpl.
Qed.

(** X15.  When the store has created a tree and every assignment can be
    remapped, the run returns after exactly these seven requests: the
    creation of the tree for the configured channel; the fetch of the
    categories of tree 1; the creation of the categories built for the id
    of the first tree of the answer; the fetch of the category assignments
    of the fetched categories, their ids joined by commas; the write of the
    remapped category assignments; the fetch of the channel assignments;
    and the write of those assignments moved to the configured channel. *)
Theorem run_succeeds
    (tree : Tree.t) (otherTrees : list Tree.t)
    (remapped : list CategoryAssignment.t) :
  trees = tree :: otherTrees →
  buildProductCategoryAssignmentsForNewCategories
    assignments categoriesMap createdCategoriesMap = Returned remapped →
  the_run.1 = Returned tt
  ∧ requests the_run.2
    = [create_tree_request;
       get_categories_request;
       create_categories_request (Tree.id tree);
       get_category_assignments_request;
       api_request "/v3/catalog/products/category-assignments" (Some "PUT")
         (Some (JSON_stringify
                  (JArray (map CategoryAssignment.toJson remapped))));
       api_request "/v3/catalog/products/channel-assignments" None None;
       api_request "/v3/catalog/products/channel-assignments" (Some "PUT")
         (Some (JSON_stringify
                  (JArray (map ChannelAssignment.toJson
                     (map (λ a, ChannelAssignment.mk
                                  (ChannelAssignment.product_id a) channelId)
                          channelAssignments)))))].
Proof.
  intros -> Hbuild. run_unfold. unfold RequestInit.empty. answer.
  unfold first_tree_id. simpl. run_simpl. answer.
  rewrite Hbuild. run_simpl. answer.
  unfold buildProductChannelAssignmentsForNewChannel. answer.
  by answer.
Qed.

(** X16.  An empty store is no special case: when the store has created a
    tree and holds no category and no assignment, the run still issues all
    seven requests and returns.  The fetch of the category assignments
    carries an empty list of category ids, and the three writes of
    categories and assignments carry the empty JSON array. *)
Theorem run_on_empty_store (tree : Tree.t) (otherTrees : list Tree.t) :
  trees = tree :: otherTrees →
  categories = [] → assignments = [] → channelAssignments = [] →
  the_run.1 = Returned tt
  ∧ requests the_run.2
    = [create_tree_request;
       api_request "/v3/catalog/trees/categories?tree_id:in=1" None None;
       api_request "/v3/catalog/trees/categories" (Some "POST") (Some "[]");
       api_request "/v3/catalog/products/category-assignments?category_id:in="
         None None;
       api_request "/v3/catalog/products/category-assignments" (Some "PUT")
         (Some "[]");
       api_request "/v3/catalog/products/channel-assignments" None None;
       api_request "/v3/catalog/products/channel-assignments" (Some "PUT")
         (Some "[]")].
Proof.
  intros -> Hcategories -> ->. run_unfold. unfold RequestInit.empty. answer.
  unfold first_tree_id. simpl. run_simpl. answer.
  rewrite Hcategories.
  unfold buildProductCategoryAssignmentsForNewCategories,
    buildCategoriesForNewTree.
  simpl. answer.
  unfold buildProductChannelAssignmentsForNewChannel. answer.
  simpl. by answer.
Qed.

End AnsweringStore.

Lemma run_stops_without_tree_witness :
  ∃ message,
    (run {[ "BIGCOMMERCE_STORE_HASH" := "abc123";
            "BIGCOMMERCE_ACCESS_TOKEN" := "secret";
            "BIGCOMMERCE_CHANNEL_ID" := "3" ]} Request.t
         (λ _ request, Returned request)
         (λ _, Returned (mkEnvelope []))
         (λ _, Returned (mkEnvelope [Category.mk 1 "A" 0]))
         (λ _, Returned (mkEnvelope []))
         (λ _, Returned (mkEnvelope []))).1
    = Thrown (TypeError message).
Proof.
  pose (env := ({[ "BIGCOMMERCE_STORE_HASH" := "abc123";
                   "BIGCOMMERCE_ACCESS_TOKEN" := "secret";
                   "BIGCOMMERCE_CHANNEL_ID" := "3" ]} : Env)).
  assert (env !! "BIGCOMMERCE_STORE_HASH" = Some "abc123" ∧ "abc123" ≠ "")
    as Hhash by (split; [by vm_compute | done]).
  assert (env !! "BIGCOMMERCE_ACCESS_TOKEN" = Some "secret" ∧ "secret" ≠ "")
    as Htoken by (split; [by vm_compute | done]).
  assert (getChannelId env = Returned 3) as Hchannel by by vm_compute.
  destruct (run_stops_without_tree env
              (λ _ request, Returned request)
              (λ _, Returned (mkEnvelope []))
              (λ _, Returned (mkEnvelope [Category.mk 1 "A" 0]))
              (λ _, Returned (mkEnvelope []))
              (λ _, Returned (mkEnvelope []))
              "abc123" "secret" 3 Hhash Htoken Hchannel
              (λ request, request) [] [Category.mk 1 "A" 0]
              (λ _ _, eq_refl) (λ _, eq_refl) (λ _ _, eq_refl) eq_refl)
    as (message & Hthrown & _).
  exists message. exact Hthrown.
Defined.

Lemma run_stops_at_unmappable_assignment_witness :
  let result :=
    run {[ "BIGCOMMERCE_STORE_HASH" := "abc123";
           "BIGCOMMERCE_ACCESS_TOKEN" := "secret";
           "BIGCOMMERCE_CHANNEL_ID" := "3" ]} Request.t
        (λ _ request, Returned request)
        (λ _, Returned (mkEnvelope [Tree.mk 55]))
        (λ response,
           Returned (mkEnvelope
             (match Request.method response with
              | Some _ => [Category.mk 10 "A" 0]
              | None => [Category.mk 1 "A" 0]
              end)))
        (λ _, Returned (mkEnvelope [CategoryAssignment.mk 7 999]))
        (λ _, Returned (mkEnvelope [])) in
  result.1
  = Thrown (Error ("Stencil category name not found for category ID "
                   +:+ Number_toString 999))
  ∧ length (requests result.2) = 4%nat.
Proof.
  intros result.
  pose (env := ({[ "BIGCOMMERCE_STORE_HASH" := "abc123";
                   "BIGCOMMERCE_ACCESS_TOKEN" := "secret";
                   "BIGCOMMERCE_CHANNEL_ID" := "3" ]} : Env)).
  assert (env !! "BIGCOMMERCE_STORE_HASH" = Some "abc123" ∧ "abc123" ≠ "")
    as Hhash by (split; [by vm_compute | done]).
  assert (env !! "BIGCOMMERCE_ACCESS_TOKEN" = Some "secret" ∧ "secret" ≠ "")
    as Htoken by (split; [by vm_compute | done]).
  assert (getChannelId env = Returned 3) as Hchannel by by vm_compute.
  destruct (run_stops_at_unmappable_assignment env
              (λ _ request, Returned request)
              (λ _, Returned (mkEnvelope [Tree.mk 55]))
              (λ response,
                 Returned (mkEnvelope
                   (match Request.method response with
                    | Some _ => [Category.mk 10 "A" 0]
                    | None => [Category.mk 1 "A" 0]
                    end)))
              (λ _, Returned (mkEnvelope [CategoryAssignment.mk 7 999]))
              (λ _, Returned (mkEnvelope []))
              "abc123" "secret" 3 Hhash Htoken Hchannel
              (λ request, request) [Tree.mk 55]
              [Category.mk 1 "A" 0] [Category.mk 10 "A" 0]
              [CategoryAssignment.mk 7 999])
    with (tree := Tree.mk 55) (otherTrees := @nil Tree.t)
         (e := Error ("Stencil category name not found for category ID "
                      +:+ Number_toString 999))
    as [Hthrown Hrequests].
  - done.
  - done.
  - by intros request ->.
  - by intros request ->.
  - done.
  - done.
  - by vm_compute.
  - split; [exact Hthrown|]. subst result. fold env. by rewrite Hrequests.
Defined.

Lemma run_succeeds_witness :
  let result :=
    run {[ "BIGCOMMERCE_STORE_HASH" := "abc123";
           "BIGCOMMERCE_ACCESS_TOKEN" := "secret";
           "BIGCOMMERCE_CHANNEL_ID" := "3" ]} Request.t
        (λ _ request, Returned request)
        (λ _, Returned (mkEnvelope [Tree.mk 55]))
        (λ response,
           Returned (mkEnvelope
             (match Request.method response with
              | Some _ => [Category.mk 10 "A" 0; Category.mk 11 "B" 1]
              | None => [Category.mk 1 "A" 0; Category.mk 2 "B" 1]
              end)))
        (λ _, Returned (mkEnvelope [CategoryAssignment.mk 7 2]))
        (λ _, Returned (mkEnvelope [ChannelAssignment.mk 7 1;
                                    ChannelAssignment.mk 8 4])) in
  result.1 = Returned tt ∧ length (requests result.2) = 7%nat.
Proof.
  intros result.
  pose (env := ({[ "BIGCOMMERCE_STORE_HASH" := "abc123";
                   "BIGCOMMERCE_ACCESS_TOKEN" := "secret";
                   "BIGCOMMERCE_CHANNEL_ID" := "3" ]} : Env)).
  assert (env !! "BIGCOMMERCE_STORE_HASH" = Some "abc123" ∧ "abc123" ≠ "")
    as Hhash by (split; [by vm_compute | done]).
  assert (env !! "BIGCOMMERCE_ACCESS_TOKEN" = Some "secret" ∧ "secret" ≠ "")
    as Htoken by (split; [by vm_compute | done]).
  assert (getChannelId env = Returned 3) as Hchannel by by vm_compute.
  destruct (run_succeeds env
              (λ _ request, Returned request)
              (λ _, Returned (mkEnvelope [Tree.mk 55]))
              (λ response,
                 Returned (mkEnvelope
                   (match Request.method response with
                    | Some _ => [Category.mk 10 "A" 0; Category.mk 11 "B" 1]
                    | None => [Category.mk 1 "A" 0; Category.mk 2 "B" 1]
                    end)))
              (λ _, Returned (mkEnvelope [CategoryAssignment.mk 7 2]))
              (λ _, Returned (mkEnvelope [ChannelAssignment.mk 7 1;
                                          ChannelAssignment.mk 8 4]))
              "abc123" "secret" 3 Hhash Htoken Hchannel
              (λ request, request) [Tree.mk 55]
              [Category.mk 1 "A" 0; Category.mk 2 "B" 1]
              [Category.mk 10 "A" 0; Category.mk 11 "B" 1]
              [CategoryAssignment.mk 7 2]
              [ChannelAssignment.mk 7 1; ChannelAssignment.mk 8 4])
    with (tree := Tree.mk 55) (otherTrees := @nil Tree.t)
         (remapped := [CategoryAssignment.mk 7 11])
    as [Hreturned Hrequests].
  - done.
  - done.
  - by intros request ->.
  - by intros request ->.
  - done.
  - done.
  - done.
  - by vm_compute.
  - split; [exact Hreturned|]. subst result. fold env. by rewrite Hrequests.
Defined.

Lemma run_on_empty_store_witness :
  let result :=
    run {[ "BIGCOMMERCE_STORE_HASH" := "abc123";
           "BIGCOMMERCE_ACCESS_TOKEN" := "secret";
           "BIGCOMMERCE_CHANNEL_ID" := "3" ]} Request.t
        (λ _ request, Returned request)
        (λ _, Returned (mkEnvelope [Tree.mk 55]))
        (λ _, Returned (mkEnvelope []))
        (λ _, Returned (mkEnvelope []))
        (λ _, Returned (mkEnvelope [])) in
  result.1 = Returned tt ∧ length (requests result.2) = 7%nat.
Proof.
  intros result.
  pose (env := ({[ "BIGCOMMERCE_STORE_HASH" := "abc123";
                   "BIGCOMMERCE_ACCESS_TOKEN" := "secret";
                   "BIGCOMMERCE_CHANNEL_ID" := "3" ]} : Env)).
  assert (env !! "BIGCOMMERCE_STORE_HASH" = Some "abc123" ∧ "abc123" ≠ "")
    as Hhash by (split; [by vm_compute | done]).
  assert (env !! "BIGCOMMERCE_ACCESS_TOKEN" = Some "secret" ∧ "secret" ≠ "")
    as Htoken by (split; [by vm_compute | done]).
  assert (getChannelId env = Returned 3) as Hchannel by by vm_compute.
  destruct (run_on_empty_store env
              (λ _ request, Returned request)
              (λ _, Returned (mkEnvelope [Tree.mk 55]))
              (λ _, Returned (mkEnvelope []))
              (λ _, Returned (mkEnvelope []))
              (λ _, Returned (mkEnvelope []))
              "abc123" "secret" 3 Hhash Htoken Hchannel
              (λ request, request) [Tree.mk 55] [] [] [] []
              (λ _ _, eq_refl) (λ _, eq_refl) (λ _ _, eq_refl) (λ _ _, eq_refl)
              (λ _, eq_refl) (λ _, eq_refl)
              (Tree.mk 55) [] eq_refl eq_refl eq_refl eq_refl)
    as [Hreturned Hrequests].
  split; [exact Hreturned|]. subst result. fold env. by rewrite Hrequests.
Defined.

(** ** Categories for the new tree, continued *)

(** X17.  [buildCategoriesForNewTree] reads only the name and the
    sort_order of the source categories: two inputs whose categories agree
    on these, position by position, give the same output, whatever their
    category ids are. *)
Theorem buildCategoriesForNewTree_ignores_ids
    (categories others : list Category.t) (newTreeId : Z) :
  map (λ cat, (Category.name cat, Category.sort_order cat)) categories
  = map (λ cat, (Category.name cat, Category.sort_order cat)) others →
  buildCategoriesForNewTree categories newTreeId
  = buildCategoriesForNewTree others newTreeId.
Proof.
  unfold buildCategoriesForNewTree. revert others.
  induction categories as [|c categories IH]; intros [|o others] Hsame;
    simpl in *; try done.
  injection Hsame as Hname Horder Hrest.
  rewrite Hname, Horder. f_equal. by apply IH.
Qed.

Lemma buildCategoriesForNewTree_ignores_ids_witness :
  buildCategoriesForNewTree [Category.mk 1 "A" 0; Category.mk 2 "B" 1] 55
  = buildCategoriesForNewTree [Category.mk 10 "A" 0; Category.mk 11 "B" 1] 55.
Proof. by apply buildCategoriesForNewTree_ignores_ids. Defined.

(** ** Runs with an incomplete configuration *)

Section IncompleteConfiguration.

Context (env : Env) {Response : Type}.
Context (fetch_response : list Request.t → Request.t → Completion Response).
Context (json_trees : Response → Completion (Envelope (list Tree.t))).
Context (json_categories : Response → Completion (Envelope (list Category.t))).
Context (json_category_assignments :
           Response → Completion (Envelope (list CategoryAssignment.t))).
Context (json_channel_assignments :
           Response → Completion (Envelope (list ChannelAssignment.t))).

#[local] Abbreviation the_run :=
  (run env Response fetch_response json_trees json_categories
       json_category_assignments json_channel_assignments).

(** X18.  A run with an incomplete configuration issues no request, and
    throws the assertion error of the first variable that is missing, in
    the order channel identifier, store hash, access token: the channel
    identifier is checked first, so with a valid channel identifier a
    store hash that is unset or empty gives the store-hash error, and with
    both valid an access token that is unset or empty gives the
    access-token error. *)
Theorem run_incomplete_configuration (channelId : Z) :
  getChannelId env = Returned channelId →
  (env !! "BIGCOMMERCE_STORE_HASH" = None
   ∨ env !! "BIGCOMMERCE_STORE_HASH" = Some "" →
   the_run.1 = Thrown (AssertionError "BIGCOMMERCE_STORE_HASH missing in env")
   ∧ requests the_run.2 = [])
  ∧ (∀ storeHash,
       env !! "BIGCOMMERCE_STORE_HASH" = Some storeHash → storeHash ≠ "" →
       env !! "BIGCOMMERCE_ACCESS_TOKEN" = None
       ∨ env !! "BIGCOMMERCE_ACCESS_TOKEN" = Some "" →
       the_run.1 = Thrown (AssertionError "BIGCOMMERCE_ACCESS_TOKEN missing in env")
       ∧ requests the_run.2 = []).
Proof.
  intros Hchannel. split.
  - intros Hhash. run_unfold. rewrite Hchannel. run_simpl.
    unfold bigcommerce_request, getStoreHash, assert, throw_if_falsy.
    by destruct Hhash as [->| ->].
  - intros storeHash Hhash Hne Htoken. run_unfold. rewrite Hchannel. run_simpl.
    unfold bigcommerce_request.
    rewrite (getStoreHash_Returned _ _ Hhash Hne). simpl.
    unfold getAccessToken, assert, throw_if_falsy.
    by destruct Htoken as [->| ->].
Qed.

End IncompleteConfiguration.

Lemma run_incomplete_configuration_witness :
  (run {[ "BIGCOMMERCE_CHANNEL_ID" := "3" ]} unit (λ _ _, Returned tt)
       (λ _, Returned (mkEnvelope [])) (λ _, Returned (mkEnvelope []))
       (λ _, Returned (mkEnvelope [])) (λ _, Returned (mkEnvelope []))).1
  = Thrown (AssertionError "BIGCOMMERCE_STORE_HASH missing in env")
  ∧ (run {[ "BIGCOMMERCE_CHANNEL_ID" := "3";
            "BIGCOMMERCE_STORE_HASH" := "abc123" ]} unit (λ _ _, Returned tt)
         (λ _, Returned (mkEnvelope [])) (λ _, Returned (mkEnvelope []))
         (λ _, Returned (mkEnvelope [])) (λ _, Returned (mkEnvelope []))).1
    = Thrown (AssertionError "BIGCOMMERCE_ACCESS_TOKEN missing in env").
Proof.
  split.
  - assert (getChannelId {[ "BIGCOMMERCE_CHANNEL_ID" := "3" ]} = Returned 3)
      as Hchannel by by vm_compute.
    refine (proj1 (proj1 (run_incomplete_configuration
                            {[ "BIGCOMMERCE_CHANNEL_ID" := "3" ]}
                            (λ _ _, Returned tt)
                            (λ _, Returned (mkEnvelope []))
                            (λ _, Returned (mkEnvelope []))
                            (λ _, Returned (mkEnvelope []))
                            (λ _, Returned (mkEnvelope []))
                            3 Hchannel) _)).
    left. by vm_compute.
  - assert (getChannelId {[ "BIGCOMMERCE_CHANNEL_ID" := "3";
                            "BIGCOMMERCE_STORE_HASH" := "abc123" ]} = Returned 3)
      as Hchannel by by vm_compute.
    refine (proj1 (proj2 (run_incomplete_configuration
                            {[ "BIGCOMMERCE_CHANNEL_ID" := "3";
                               "BIGCOMMERCE_STORE_HASH" := "abc123" ]}
                            (λ _ _, Returned tt)
                            (λ _, Returned (mkEnvelope []))
                            (λ _, Returned (mkEnvelope []))
                            (λ _, Returned (mkEnvelope []))
                            (λ _, Returned (mkEnvelope []))
                            3 Hchannel) "abc123" _ _ _));
      [by vm_compute | done | left; by vm_compute].
Defined.
